(** * virustotal3.enterprise: a shallow embedding of the endpoint wrappers

    The module [virustotal3/enterprise.py] is a client binding for the
    VirusTotal Enterprise REST API.  Every wrapper builds one HTTP request,
    hands it to the [requests] library, checks the status code and
    returns the JSON payload pretty-printed (or raises).

    The embedding below follows the Python text wrapper by wrapper.  Effects
    (network traffic, the file written by [get_zip], [print] and [exit]) are
    threaded through a small state-and-error monad over a [World]. *)

From Stdlib Require Import ZArith String Ascii DecimalString.
From Stdlib.Strings Require Import Byte.
From stdpp Require Import gmap strings list.
From Equations Require Import Equations.

Open Scope Z_scope.

(** ** Python values that travel through the wrappers *)

(** Scalars given as query arguments ([query], [limit], [cursor], ...). *)
Inductive pyval :=
| PyStr (s : string)
| PyInt (z : Z)
| PyBool (b : bool).

(** [str(v)], the text [requests] puts on the wire for a scalar. *)
Definition py_str (v : pyval) : string :=
  match v with
  | PyStr s => s
  | PyInt z => NilZero.string_of_int (Z.to_int z)
  | PyBool true => "True"
  | PyBool false => "False"
  end.

(** A Python dict literal of query parameters: insertion ordered, values may
    be [None]. *)
Definition pydict := list (string * option pyval).

(** A value returned by a wrapper: [None] or a [str]. *)
Inductive pyret :=
| PyNone
| PyString (s : string).

(** ** JSON values and [json.dumps] *)

(** What [response.json()] yields and what callers pass as [data].  Numbers
    are the integers; floating point payloads are outside the model. *)
#[warnings="-register-all"]
Inductive json :=
| JNull
| JBool (b : bool)
| JInt (z : Z)
| JStr (s : string)
| JList (items : list json)
| JDict (members : list (string * json)).

Module JsonDumps.

Definition nl : string := String (ascii_of_nat 10) EmptyString.
Definition dquote : string := String (ascii_of_nat 34) EmptyString.

Definition hex_digit (n : nat) : ascii :=
  match n with
  | 0 => "0" | 1 => "1" | 2 => "2" | 3 => "3" | 4 => "4" | 5 => "5"
  | 6 => "6" | 7 => "7" | 8 => "8" | 9 => "9" | 10 => "a" | 11 => "b"
  | 12 => "c" | 13 => "d" | 14 => "e" | _ => "f"
  end%nat%char.

(** One character under [ensure_ascii=True]: the short escapes, then
    [\u00XX] for everything outside the printable range [' '..'~']. *)
Definition escape_char (c : ascii) : string :=
  let n := nat_of_ascii c in
  if (n =? 34)%nat then "\" +:+ dquote
  else if (n =? 92)%nat then "\\"
  else if (n =? 10)%nat then "\n"
  else if (n =? 13)%nat then "\r"
  else if (n =? 9)%nat then "\t"
  else if (n =? 8)%nat then "\b"
  else if (n =? 12)%nat then "\f"
  else if ((32 <=? n) && (n <=? 126))%nat then String c EmptyString
  else "\u00" +:+ String (hex_digit (n / 16)) (String (hex_digit (n mod 16)) EmptyString).

Fixpoint escape (s : string) : string :=
  match s with
  | EmptyString => EmptyString
  | String c r => escape_char c +:+ escape r
  end.

Definition quoted (s : string) : string := dquote +:+ escape s +:+ dquote.

Fixpoint spaces (n : nat) : string :=
  match n with
  | O => EmptyString
  | S k => String " " (spaces k)
  end.

(** Line break and indentation in front of an item at nesting depth
    [lvl]; nothing when [indent] is [None]. *)
Definition newline_indent (indent : option nat) (lvl : nat) : string :=
  match indent with
  | None => EmptyString
  | Some n => nl +:+ spaces (n * lvl)
  end.

Definition item_separator (indent : option nat) (lvl : nat) : string :=
  match indent with
  | None => ", "
  | Some _ => "," +:+ newline_indent indent lvl
  end.

(** [sort_keys=True]: the members sorted by key. *)
Fixpoint insert_by_key (kv : string * string) (l : list (string * string))
  : list (string * string) :=
  match l with
  | [] => [kv]
  | kv' :: r =>
      if String.leb (fst kv) (fst kv') then kv :: kv' :: r
      else kv' :: insert_by_key kv r
  end.

Definition sort_by_key (l : list (string * string)) : list (string * string) :=
  foldr insert_by_key [] l.

Definition bracket (indent : option nat) (lvl : nat)
           (opening closing : string) (items : list string) : string :=
  match items with
  | [] => opening +:+ closing
  | _ => opening +:+ newline_indent indent (S lvl)
         +:+ String.concat (item_separator indent (S lvl)) items
         +:+ newline_indent indent lvl +:+ closing
  end.

Fixpoint render (indent : option nat) (sort_keys : bool) (lvl : nat) (j : json)
  : string :=
  match j with
  | JNull => "null"
  | JBool true => "true"
  | JBool false => "false"
  | JInt z => NilZero.string_of_int (Z.to_int z)
  | JStr s => quoted s
  | JList items =>
      bracket indent lvl "[" "]"
        ((fix each (l : list json) : list string :=
            match l with
            | [] => []
            | x :: r => render indent sort_keys (S lvl) x :: each r
            end) items)
  | JDict members =>
      let rendered :=
        (fix each (l : list (string * json)) : list (string * string) :=
           match l with
           | [] => []
           | (k, v) :: r => (k, render indent sort_keys (S lvl) v) :: each r
           end) members in
      let ordered := if sort_keys then sort_by_key rendered else rendered in
      bracket indent lvl "{" "}"
        (map (fun kv => quoted (fst kv) +:+ ": " +:+ snd kv) ordered)
  end.

End JsonDumps.

(** [json.dumps(j, indent=indent, sort_keys=sort_keys)]. *)
Definition json_dumps (indent : option nat) (sort_keys : bool) (j : json) : string :=
  JsonDumps.render indent sort_keys 0 j.

(** [json.dumps(data)], the compact form used for request bodies. *)
Definition json_dumps_default (j : json) : string := json_dumps None false j.

(** ** The HTTP boundary: what is handed to [requests] and what comes back *)

Inductive Method := GET | POST | PATCH | DELETE.

(** The [proxies] dictionary (scheme to proxy URL). *)
Definition proxy_map := list (string * string).

(** The header dictionary; a session built without a key carries [None]
    under [x-apikey]. *)
Definition header_map := list (string * option string).

(** One call of [requests.get/post/patch/delete]: the URL and the keyword
    arguments it was given.  A keyword that the call site leaves out is
    [None], which is also the library's default for it. *)
Record Request := mkRequest {
  method : Method;
  url : string;
  req_headers : header_map;
  req_params : option pydict;
  req_data : option string;
  req_proxies : option proxy_map
}.

(** A [requests.Response].  [raw] is the body as the network delivered it,
    chunk by chunk; [text] is its decoded text and [json_body] the result
    of parsing it, [None] when the body is not JSON. *)
Record Response := mkResponse {
  status_code : Z;
  text : string;
  json_body : option json;
  raw : list (list byte)
}.

(** No call site passes [stream=True], so the body has been read in full by
    the time the wrapper sees the response. *)
Definition content (r : Response) : list byte := concat (raw r).

(** What the network does with a request: it answers, or the attempt fails
    below HTTP (DNS, refused connection, timeout). *)
Inductive Reply :=
| Answer (r : Response)
| NetworkFailure (msg : string).

(** ** The world and the monad of wrapper code *)

Inductive FileEvent :=
| EvOpen (path : string)
| EvWrite (path : string) (chunk : list byte)
| EvFlush (path : string)
| EvClose (path : string).

Record World := mkWorld {
  network : Request -> Reply;       (* the remote side *)
  net_log : list Request;           (* requests issued so far, oldest first *)
  openable : string -> bool;        (* can this path be opened for writing *)
  fs : gmap string (list byte);     (* file contents on disk *)
  buffers : gmap string (list byte);(* unflushed bytes of the open files *)
  fs_log : list FileEvent;          (* file operations so far, oldest first *)
  stdout : list string              (* lines printed *)
}.

Inductive exn :=
| Exception (msg : string)
| RequestException (msg : string)
| ValueError (msg : string)
| OSError (msg : string).

Inductive outcome (A : Type) :=
| Returned (a : A)
| Raised (e : exn)
| Exited (code : Z).
Arguments Returned {A} a.
Arguments Raised {A} e.
Arguments Exited {A} code.

Definition M (A : Type) : Type := World -> outcome A * World.

#[global] Instance M_ret : MRet M := fun A a w => (Returned a, w).

#[global] Instance M_bind : MBind M := fun A B f m w =>
  match m w with
  | (Returned a, w') => f a w'
  | (Raised e, w') => (Raised e, w')
  | (Exited c, w') => (Exited c, w')
  end.

Definition raise {A} (e : exn) : M A := fun w => (Raised e, w).

(** [exit(code)]: the process ends, no handler of the module sees it. *)
Definition py_exit {A} (code : Z) : M A := fun w => (Exited code, w).

Definition record_line (line : string) (w : World) : World :=
  mkWorld (network w) (net_log w) (openable w) (fs w) (buffers w) (fs_log w)
          (stdout w ++ [line]).

Definition print (line : string) : M unit := fun w =>
  (Returned tt, record_line line w).

(** [try: body  except requests.exceptions.RequestException as error:
    print(error); exit(1)], the frame around every wrapper body. *)
Definition try_except_RequestException {A} (body : M A) : M A := fun w =>
  match body w with
  | (Raised (RequestException msg), w') => (print msg ≫= fun _ => py_exit 1) w'
  | r => r
  end.

(** The second handler of [get_zip]: [except os.error as error: print(error);
    exit(1)]. *)
Definition try_except_os_error {A} (body : M A) : M A := fun w =>
  match body w with
  | (Raised (OSError msg), w') => (print msg ≫= fun _ => py_exit 1) w'
  | r => r
  end.

(** *** [requests] *)

(** Issue one request: it is recorded, and the network answers or fails
    with a [RequestException]. *)
Definition record_request (q : Request) (w : World) : World :=
  mkWorld (network w) (net_log w ++ [q]) (openable w) (fs w)
          (buffers w) (fs_log w) (stdout w).

Definition requests_request (q : Request) : M Response := fun w =>
  match network w q with
  | Answer r => (Returned r, record_request q w)
  | NetworkFailure msg => (Raised (RequestException msg), record_request q w)
  end.

Definition requests_get (u : string) (headers : header_map)
           (params : option pydict) (proxies : option proxy_map) : M Response :=
  requests_request (mkRequest GET u headers params None proxies).

Definition requests_delete (u : string) (headers : header_map)
           (params : option pydict) (proxies : option proxy_map) : M Response :=
  requests_request (mkRequest DELETE u headers params None proxies).

Definition requests_post (u : string) (data : option string) (headers : header_map)
           (proxies : option proxy_map) : M Response :=
  requests_request (mkRequest POST u headers None data proxies).

Definition requests_patch (u : string) (data : option string) (headers : header_map)
           (proxies : option proxy_map) : M Response :=
  requests_request (mkRequest PATCH u headers None data proxies).

(** [response.json()]; a body that is not JSON raises [ValueError].  (From
    version 2.27 on, [requests] raises a subclass of [RequestException]
    there instead; nothing below depends on the branch of a status-200 answer
    whose body is not JSON, which is always a hypothesis where it matters.) *)
Definition response_json (r : Response) : M json :=
  match json_body r with
  | Some j => mret j
  | None => raise (ValueError "Expecting value")
  end.

(** How [requests] turns the [params] dictionary into the query of the URL:
    in order, [str] of every value, and a key whose value is [None] is left
    out. *)
Fixpoint encode_params (d : pydict) : list (string * string) :=
  match d with
  | [] => []
  | (k, Some v) :: r => (k, py_str v) :: encode_params r
  | (_, None) :: r => encode_params r
  end.

(** The query parameters that leave with a request. *)
Definition outgoing_query (q : Request) : list (string * string) :=
  match req_params q with
  | Some d => encode_params d
  | None => []
  end.

(** [response.iter_content(chunk_size)] on a body that was already read:
    consecutive slices of [chunk_size] bytes, the last one possibly
    shorter. *)
Equations? iter_slices (chunk_size : nat) (data : list byte) : list (list byte)
  by wf (length data) lt :=
  iter_slices chunk_size [] := [];
  iter_slices 0 (b :: rest) := [b :: rest];
  iter_slices (S n) (b :: rest) :=
    take (S n) (b :: rest) :: iter_slices (S n) (drop (S n) (b :: rest)).
Proof. simpl. rewrite length_drop. lia. Qed.

Definition iter_content (r : Response) (chunk_size : nat) : list (list byte) :=
  iter_slices chunk_size (content r).

(** *** Files *)

(** [open(path, 'wb')]: the file is created or truncated; the handle is the
    path.  A path that cannot be opened raises [OSError]. *)
Definition open_wb (path : string) : M string := fun w =>
  if openable w path then
    (Returned path,
     mkWorld (network w) (net_log w) (openable w) (<[path := []]> (fs w))
             (<[path := []]> (buffers w)) (fs_log w ++ [EvOpen path]) (stdout w))
  else (Raised (OSError ("cannot open " +:+ path)), w).

(** [f.write(chunk)]: the bytes join the handle's buffer. *)
Definition file_write (f : string) (chunk : list byte) : M unit := fun w =>
  (Returned tt,
   mkWorld (network w) (net_log w) (openable w) (fs w)
           (<[f := default [] (buffers w !! f) ++ chunk]> (buffers w))
           (fs_log w ++ [EvWrite f chunk]) (stdout w)).

(** [f.flush()]: the buffer is appended to the file on disk. *)
Definition file_flush (f : string) : M unit := fun w =>
  (Returned tt,
   mkWorld (network w) (net_log w) (openable w)
           (<[f := default [] (fs w !! f) ++ default [] (buffers w !! f)]> (fs w))
           (<[f := []]> (buffers w))
           (fs_log w ++ [EvFlush f]) (stdout w)).

(** Closing writes out what is still buffered and drops the handle. *)
Definition file_close (f : string) (w : World) : World :=
  mkWorld (network w) (net_log w) (openable w)
          (<[f := default [] (fs w !! f) ++ default [] (buffers w !! f)]> (fs w))
          (delete f (buffers w))
          (fs_log w ++ [EvClose f]) (stdout w).

(** [with open(path, 'wb') as f: body]: the file is closed however the body
    ends. *)
Definition with_open_wb {A} (path : string) (body : string -> M A) : M A := fun w =>
  match open_wb path w with
  | (Returned f, w1) => let (r, w2) := body f w1 in (r, file_close f w2)
  | (Raised e, w1) => (Raised e, w1)
  | (Exited c, w1) => (Exited c, w1)
  end.

(** [for x in xs: body]. *)
Fixpoint for_each {A} (xs : list A) (body : A -> M unit) : M unit :=
  match xs with
  | [] => mret tt
  | x :: rest => body x ;; for_each rest body
  end.

(** Truth value of a byte string: empty is false. *)
Definition nonempty (chunk : list byte) : bool :=
  match chunk with [] => false | _ => true end.

(** Truth value of an optional string argument: [None] and [''] are false. *)
Definition truthy (o : option string) : bool :=
  match o with
  | Some s => negb (String.eqb s "")
  | None => false
  end.

(** ['{}'.format(x)] for an optional string. *)
Definition format_arg (o : option string) : string :=
  match o with
  | Some s => s
  | None => "None"
  end.

(** ** The module *)

(** [_raise_exception(response)]. *)
Definition _raise_exception {A} (response : Response) : M A :=
  raise (Exception (text response)).

(** [if response.status_code != 200: _raise_exception(response)]. *)
Definition check_status (response : Response) : M unit :=
  if negb (status_code response =? 200) then _raise_exception response
  else mret tt.

(** [return json.dumps(response.json(), indent=4, sort_keys=True)]. *)
Definition return_pretty (response : Response) : M pyret :=
  j ← response_json response;
  mret (PyString (json_dumps (Some 4%nat) true j)).

(** [json.dumps(response.json(), indent=4, sort_keys=True)] as a statement:
    the text is computed and dropped, the function falls off its end. *)
Definition discard_pretty (response : Response) : M pyret :=
  j ← response_json response;
  let _ := json_dumps (Some 4%nat) true j in
  mret PyNone.

Definition search (api_key : option string) (query : string)
           (order limit cursor descriptors_only : option pyval)
           (proxies : option proxy_map) : M pyret :=
  match api_key with
  | None => raise (Exception "You must provide a valid API key")
  | Some _ =>
      try_except_RequestException (
        let params := [("query", Some (PyStr query)); ("order", order);
                       ("limit", limit); ("cursor", cursor);
                       ("descriptors_only", descriptors_only)] in
        response ← requests_get "https://www.virustotal.com/api/v3/intelligence/search"
                     [("x-apikey", api_key); ("Accept", Some "application/json")]
                     (Some params) proxies;
        check_status response ;;
        discard_pretty response)
  end.

Definition file_feed (api_key : option string) (time : string) : M pyret :=
  match api_key with
  | None => raise (Exception "You must provide a valid API key")
  | Some _ =>
      try_except_RequestException (
        response ← requests_get ("https://www.virustotal.com/api/v3/feeds/files/" +:+ time)
                     [("x-apikey", api_key); ("Accept", Some "application/json")]
                     None None;
        check_status response ;;
        discard_pretty response)
  end.

(** The attributes every session class sets in [__init__]. *)
Record Session := mkSession {
  api_key : option string;
  base_url : string;
  headers : header_map;
  proxies : option proxy_map
}.

Module Livehunt.

Definition __init__ (api_key : option string) (proxies : option proxy_map)
  : M Session :=
  let self := mkSession api_key "https://www.virustotal.com/api/v3/intelligence"
                [("x-apikey", api_key); ("Accept", Some "application/json")]
                proxies in
  match api_key with
  | None => raise (Exception "You must provide a valid API key")
  | Some _ => mret self
  end.

Definition get_rulesets (self : Session) (ruleset_id : option string)
           (limit fltr order cursor : option pyval) : M pyret :=
  try_except_RequestException (
    response ←
      (if truthy ruleset_id then
         let params := [("id", PyStr <$> ruleset_id)] in
         requests_get (base_url self +:+ "/hunting_rulesets/" +:+ format_arg ruleset_id)
           (headers self) (Some params) (proxies self)
       else
         let params := [("limit", limit); ("fltr", fltr); ("order", order);
                        ("cursor", cursor)] in
         requests_get (base_url self +:+ "/hunting_rulesets")
           (headers self) (Some params) (proxies self));
    check_status response ;;
    return_pretty response).

Definition create_rulset (self : Session) (data : json) : M pyret :=
  try_except_RequestException (
    response ← requests_post (base_url self +:+ "/hunting_rulesets")
                 (Some (json_dumps_default data)) (headers self) (proxies self);
    check_status response ;;
    return_pretty response).

Definition update_ruleset (self : Session) (ruleset_id : string) (data : json)
  : M pyret :=
  try_except_RequestException (
    response ← requests_patch (base_url self +:+ "/hunting_rulesets/" +:+ ruleset_id)
                 (Some (json_dumps_default data)) (headers self) (proxies self);
    check_status response ;;
    return_pretty response).

Definition delete_ruleset (self : Session) (ruleset_id : string) : M pyret :=
  try_except_RequestException (
    response ← requests_delete (base_url self +:+ "/hunting_rulesets/" +:+ ruleset_id)
                 (headers self) None (proxies self);
    check_status response ;;
    mret PyNone).

(** In the listing branch [params] is built but not handed to
    [requests.get]; in the single-notification branch no [proxies] are. *)
Definition get_notifications (self : Session) (notification_id : option string)
           (limit fltr cursor : option pyval) : M pyret :=
  try_except_RequestException (
    response ←
      (if truthy notification_id then
         let params := [("id", PyStr <$> notification_id)] in
         requests_get (base_url self +:+ "/hunting_notifications/"
                       +:+ format_arg notification_id)
           (headers self) (Some params) None
       else
         let params := [("limit", limit); ("fltr", fltr); ("cursor", cursor)] in
         requests_get (base_url self +:+ "/hunting_notifications")
           (headers self) None (proxies self));
    check_status response ;;
    return_pretty response).

Definition delete_notifications (self : Session) (tag : string) : M pyret :=
  try_except_RequestException (
    let params := [("tag", Some (PyStr tag))] in
    response ← requests_delete (base_url self +:+ "/hunting_notifications")
                 (headers self) (Some params) (proxies self);
    check_status response ;;
    mret PyNone).

Definition delete_notification (self : Session) (notification_id : string)
  : M pyret :=
  try_except_RequestException (
    let params := [("id", Some (PyStr notification_id))] in
    response ← requests_delete (base_url self +:+ "/hunting_notifications")
                 (headers self) (Some params) (proxies self);
    check_status response ;;
    mret PyNone).

Definition get_notification_files (self : Session) (limit cursor : option pyval)
  : M pyret :=
  try_except_RequestException (
    let params := [("limit", limit); ("cursor", cursor)] in
    response ← requests_get (base_url self +:+ "/hunting_notification_files")
                 (headers self) (Some params) (proxies self);
    check_status response ;;
    return_pretty response).

End Livehunt.

Module Retrohunt.

(** No key check here: the attributes are set and the constructor ends. *)
Definition __init__ (api_key : option string) (proxies : option proxy_map)
  : M Session :=
  mret (mkSession api_key "https://www.virustotal.com/api/v3/intelligence"
          [("x-apikey", api_key); ("Accept", Some "application/json")]
          proxies).

Definition get_jobs (self : Session) (job_id : option string)
           (limit fltr cursor : option pyval) : M pyret :=
  try_except_RequestException (
    response ←
      (if truthy job_id then
         let params := [("id", PyStr <$> job_id)] in
         requests_get (base_url self +:+ "/Retrohunt_jobs/" +:+ format_arg job_id)
           (headers self) (Some params) (proxies self)
       else
         let params := [("limit", limit); ("fltr", fltr); ("cursor", cursor)] in
         requests_get (base_url self +:+ "/Retrohunt_jobs")
           (headers self) (Some params) (proxies self));
    check_status response ;;
    return_pretty response).

Definition create_job (self : Session) (data : json) : M pyret :=
  try_except_RequestException (
    response ← requests_post (base_url self +:+ "/Retrohunt_jobs")
                 (Some (json_dumps_default data)) (headers self) (proxies self);
    check_status response ;;
    return_pretty response).

Definition delete_job (self : Session) (job_id : string) : M pyret :=
  try_except_RequestException (
    response ← requests_delete (base_url self +:+ "/Retrohunt_jobs/" +:+ job_id)
                 (headers self) None (proxies self);
    check_status response ;;
    mret PyNone).

Definition abort_job (self : Session) (job_id : string) : M pyret :=
  try_except_RequestException (
    response ← requests_post (base_url self +:+ "/Retrohunt_jobs/" +:+ job_id +:+ "/abort")
                 None (headers self) (proxies self);
    check_status response ;;
    mret PyNone).

Definition get_matching_files (self : Session) (job_id : string) : M pyret :=
  try_except_RequestException (
    response ← requests_get (base_url self +:+ "/Retrohunt_jobs/" +:+ job_id
                             +:+ "/matching_files")
                 (headers self) None (proxies self);
    check_status response ;;
    return_pretty response).

End Retrohunt.

Module Accounts.

Definition __init__ (api_key : option string) (proxies : option proxy_map)
  : M Session :=
  mret (mkSession api_key "https://www.virustotal.com/api/v3"
          [("x-apikey", api_key); ("Accept", Some "application/json")]
          proxies).

Definition info_user (self : Session) (user_id : string) : M pyret :=
  try_except_RequestException (
    let params := [("id", Some (PyStr user_id))] in
    response ← requests_get (base_url self +:+ "/users/" +:+ user_id)
                 (headers self) (Some params) (proxies self);
    check_status response ;;
    return_pretty response).

Definition info_group (self : Session) (group_id : string) : M pyret :=
  try_except_RequestException (
    response ← requests_get (base_url self +:+ "/groups/" +:+ group_id)
                 (headers self) None (proxies self);
    check_status response ;;
    return_pretty response).

Definition get_relationship (self : Session) (group_id relationship : string)
           (limit cursor : option pyval) : M pyret :=
  try_except_RequestException (
    let params := [("limit", limit); ("cursor", cursor)] in
    response ← requests_get (base_url self +:+ "/groups/" +:+ group_id
                             +:+ "/relationships/" +:+ relationship)
                 (headers self) (Some params) (proxies self);
    check_status response ;;
    return_pretty response).

End Accounts.

Module ZipFiles.

Definition __init__ (api_key : option string) (proxies : option proxy_map)
  : M Session :=
  mret (mkSession api_key "https://www.virustotal.com/api/v3/intelligence"
          [("x-apikey", api_key); ("Accept", Some "application/json")]
          proxies).

Definition create_zip (self : Session) (data : json) : M pyret :=
  try_except_RequestException (
    response ← requests_post (base_url self +:+ "/zip_files")
                 (Some (json_dumps_default data)) (headers self) (proxies self);
    check_status response ;;
    return_pretty response).

Definition info_zip (self : Session) (zip_id : string) : M pyret :=
  try_except_RequestException (
    response ← requests_get (base_url self +:+ "/zip_files/" +:+ zip_id)
                 (headers self) None (proxies self);
    check_status response ;;
    return_pretty response).

Definition get_url (self : Session) (zip_id : string) : M pyret :=
  try_except_RequestException (
    response ← requests_get (base_url self +:+ "/zip_files/" +:+ zip_id
                             +:+ "/download_url")
                 (headers self) None (proxies self);
    check_status response ;;
    return_pretty response).

(** The loop of [get_zip]: [if chunk: f.write(chunk); f.flush()]. *)
Definition write_chunk (f : string) (chunk : list byte) : M unit :=
  if nonempty chunk then file_write f chunk ;; file_flush f
  else mret tt.

Definition get_zip (self : Session) (zip_id output_dir : string) : M pyret :=
  try_except_os_error (try_except_RequestException (
    response ← requests_get (base_url self +:+ "/zip_files/" +:+ zip_id
                             +:+ "/download")
                 (headers self) None (proxies self);
    check_status response ;;
    with_open_wb (output_dir +:+ zip_id +:+ ".zip") (fun f =>
      for_each (iter_content response 1024) (write_chunk f)) ;;
    mret PyNone)).

End ZipFiles.

(** ** Every wrapper, as one type *)

(** A call of one of the module's wrappers with its arguments. *)
Inductive Call :=
| Search (api_key : option string) (query : string)
         (order limit cursor descriptors_only : option pyval)
         (proxies : option proxy_map)
| FileFeed (api_key : option string) (time : string)
| LH_get_rulesets (self : Session) (ruleset_id : option string)
                  (limit fltr order cursor : option pyval)
| LH_create_rulset (self : Session) (data : json)
| LH_update_ruleset (self : Session) (ruleset_id : string) (data : json)
| LH_delete_ruleset (self : Session) (ruleset_id : string)
| LH_get_notifications (self : Session) (notification_id : option string)
                       (limit fltr cursor : option pyval)
| LH_delete_notifications (self : Session) (tag : string)
| LH_delete_notification (self : Session) (notification_id : string)
| LH_get_notification_files (self : Session) (limit cursor : option pyval)
| RH_get_jobs (self : Session) (job_id : option string)
              (limit fltr cursor : option pyval)
| RH_create_job (self : Session) (data : json)
| RH_delete_job (self : Session) (job_id : string)
| RH_abort_job (self : Session) (job_id : string)
| RH_get_matching_files (self : Session) (job_id : string)
| AC_info_user (self : Session) (user_id : string)
| AC_info_group (self : Session) (group_id : string)
| AC_get_relationship (self : Session) (group_id relationship : string)
                      (limit cursor : option pyval)
| ZF_create_zip (self : Session) (data : json)
| ZF_info_zip (self : Session) (zip_id : string)
| ZF_get_url (self : Session) (zip_id : string)
| ZF_get_zip (self : Session) (zip_id output_dir : string).

Definition invoke (c : Call) : M pyret :=
  match c with
  | Search k q o l cu d p => search k q o l cu d p
  | FileFeed k t => file_feed k t
  | LH_get_rulesets s i l f o cu => Livehunt.get_rulesets s i l f o cu
  | LH_create_rulset s d => Livehunt.create_rulset s d
  | LH_update_ruleset s i d => Livehunt.update_ruleset s i d
  | LH_delete_ruleset s i => Livehunt.delete_ruleset s i
  | LH_get_notifications s i l f cu => Livehunt.get_notifications s i l f cu
  | LH_delete_notifications s t => Livehunt.delete_notifications s t
  | LH_delete_notification s i => Livehunt.delete_notification s i
  | LH_get_notification_files s l cu => Livehunt.get_notification_files s l cu
  | RH_get_jobs s i l f cu => Retrohunt.get_jobs s i l f cu
  | RH_create_job s d => Retrohunt.create_job s d
  | RH_delete_job s i => Retrohunt.delete_job s i
  | RH_abort_job s i => Retrohunt.abort_job s i
  | RH_get_matching_files s i => Retrohunt.get_matching_files s i
  | AC_info_user s i => Accounts.info_user s i
  | AC_info_group s i => Accounts.info_group s i
  | AC_get_relationship s g r l cu => Accounts.get_relationship s g r l cu
  | ZF_create_zip s d => ZipFiles.create_zip s d
  | ZF_info_zip s i => ZipFiles.info_zip s i
  | ZF_get_url s i => ZipFiles.get_url s i
  | ZF_get_zip s i o => ZipFiles.get_zip s i o
  end.

(** The requests a computation issued when run from [w]. *)
Definition requests_sent {A} (m : M A) (w : World) : list Request :=
  drop (length (net_log w)) (net_log (snd (m w))).

(** The file operations a computation performed when run from [w]. *)
Definition file_events {A} (m : M A) (w : World) : list FileEvent :=
  drop (length (fs_log w)) (fs_log (snd (m w))).

(** The optional query arguments of a call, each under the key its wrapper
    gives it in the [params] dictionary. *)
Definition optional_query_args (c : Call) : pydict :=
  match c with
  | Search _ _ o l cu d _ =>
      [("order", o); ("limit", l); ("cursor", cu); ("descriptors_only", d)]
  | LH_get_rulesets _ _ l f o cu =>
      [("limit", l); ("fltr", f); ("order", o); ("cursor", cu)]
  | LH_get_notifications _ _ l f cu => [("limit", l); ("fltr", f); ("cursor", cu)]
  | LH_get_notification_files _ l cu => [("limit", l); ("cursor", cu)]
  | RH_get_jobs _ _ l f cu => [("limit", l); ("fltr", f); ("cursor", cu)]
  | AC_get_relationship _ _ _ l cu => [("limit", l); ("cursor", cu)]
  | _ => []
  end.

(** The listing wrappers, called without a resource ID. *)
Inductive Listing :=
| List_rulesets (limit fltr order cursor : option pyval)
| List_notifications (limit fltr cursor : option pyval)
| List_jobs (limit fltr cursor : option pyval).

Definition listing_call (self : Session) (l : Listing) : Call :=
  match l with
  | List_rulesets li f o cu => LH_get_rulesets self None li f o cu
  | List_notifications li f cu => LH_get_notifications self None li f cu
  | List_jobs li f cu => RH_get_jobs self None li f cu
  end.

(** The pagination and filter arguments of a listing call under the names
    the interface description gives them. *)
Definition listing_args (l : Listing) : pydict :=
  match l with
  | List_rulesets li f o cu =>
      [("limit", li); ("filter", f); ("order", o); ("cursor", cu)]
  | List_notifications li f cu => [("limit", li); ("filter", f); ("cursor", cu)]
  | List_jobs li f cu => [("limit", li); ("filter", f); ("cursor", cu)]
  end.

(** The wrappers that interpolate a resource ID into the URL, with their
    other arguments. *)
Inductive IdWrapper :=
| Id_get_rulesets (limit fltr order cursor : option pyval)
| Id_update_ruleset (data : json)
| Id_delete_ruleset
| Id_get_notifications (limit fltr cursor : option pyval)
| Id_delete_notification
| Id_get_jobs (limit fltr cursor : option pyval)
| Id_delete_job
| Id_abort_job
| Id_get_matching_files
| Id_info_user
| Id_info_group
| Id_relationship_group (relationship : string) (limit cursor : option pyval)
| Id_info_zip
| Id_get_url
| Id_get_zip (output_dir : string).

Definition id_call (e : IdWrapper) (self : Session) (id : string) : Call :=
  match e with
  | Id_get_rulesets l f o cu => LH_get_rulesets self (Some id) l f o cu
  | Id_update_ruleset d => LH_update_ruleset self id d
  | Id_delete_ruleset => LH_delete_ruleset self id
  | Id_get_notifications l f cu => LH_get_notifications self (Some id) l f cu
  | Id_delete_notification => LH_delete_notification self id
  | Id_get_jobs l f cu => RH_get_jobs self (Some id) l f cu
  | Id_delete_job => RH_delete_job self id
  | Id_abort_job => RH_abort_job self id
  | Id_get_matching_files => RH_get_matching_files self id
  | Id_info_user => AC_info_user self id
  | Id_info_group => AC_info_group self id
  | Id_relationship_group rel l cu => AC_get_relationship self id rel l cu
  | Id_info_zip => ZF_info_zip self id
  | Id_get_url => ZF_get_url self id
  | Id_get_zip o => ZF_get_zip self id o
  end.

(** Whether the wrapper puts its ID into the URL: [delete_notification] alone
    does not, it sends the ID as a query parameter only. *)
Definition id_in_path (e : IdWrapper) : bool :=
  match e with
  | Id_delete_notification => false
  | _ => true
  end.

(** ** Paths and URLs as text *)

Module Path.

Definition is_sep (c : ascii) : bool := Ascii.eqb c "/".

Fixpoint contains_sep (s : string) : bool :=
  match s with
  | EmptyString => false
  | String c r => is_sep c || contains_sep r
  end.

Fixpoint ends_with_sep (s : string) : bool :=
  match s with
  | EmptyString => false
  | String c EmptyString => is_sep c
  | String _ r => ends_with_sep r
  end.

(** The part up to and including the last separator. *)
Fixpoint dirname (s : string) : string :=
  match s with
  | EmptyString => EmptyString
  | String c r =>
      if contains_sep r then String c (dirname r)
      else if is_sep c then String c EmptyString
      else EmptyString
  end.

(** The part after the last separator. *)
Fixpoint basename (s : string) : string :=
  match s with
  | EmptyString => EmptyString
  | String c r =>
      if contains_sep r then basename r
      else if is_sep c then r
      else String c r
  end.

(** The segments between separators, left to right; [cur] is the segment
    being read. *)
Fixpoint split_from (cur : string) (s : string) : list string :=
  match s with
  | EmptyString => [cur]
  | String c r =>
      if is_sep c then cur :: split_from EmptyString r
      else split_from (cur +:+ String c EmptyString) r
  end.

Definition segments (s : string) : list string := split_from EmptyString s.

Definition upper_hex_digit (n : nat) : ascii :=
  match n with
  | 0 => "0" | 1 => "1" | 2 => "2" | 3 => "3" | 4 => "4" | 5 => "5"
  | 6 => "6" | 7 => "7" | 8 => "8" | 9 => "9" | 10 => "A" | 11 => "B"
  | 12 => "C" | 13 => "D" | 14 => "E" | _ => "F"
  end%nat%char.

(** Characters that need no escaping in a path segment: letters, digits
    and [-._~]. *)
Definition unreserved (c : ascii) : bool :=
  let n := nat_of_ascii c in
  ((65 <=? n) && (n <=? 90) || (97 <=? n) && (n <=? 122)
   || (48 <=? n) && (n <=? 57)
   || (n =? 45) || (n =? 46) || (n =? 95) || (n =? 126))%nat.

(** Stated from the specification's words: the ID "URL-escaped", every
    character outside the unreserved set written as [%XX]. *)
Fixpoint url_escaped (s : string) : string :=
  match s with
  | EmptyString => EmptyString
  | String c r =>
      (if unreserved c then String c EmptyString
       else String "%" (String (upper_hex_digit (nat_of_ascii c / 16))
              (String (upper_hex_digit (nat_of_ascii c mod 16)) EmptyString)))
      +:+ url_escaped r
  end.

End Path.

(** ** Definitions used to state the properties *)

(** The frame every wrapper instantiates: issue [q], check the status, go on
    with [k]. *)
Definition round_trip (q : Request) (k : Response -> M pyret) : M pyret :=
  try_except_RequestException (
    response ← requests_request q;
    check_status response ;;
    k response).

(** A continuation that neither talks to the network nor raises a
    [RequestException]. *)
Definition offline (k : Response -> M pyret) : Prop :=
  forall r w,
    net_log (snd (k r w)) = net_log w /\
    (forall msg, fst (k r w) <> Raised (RequestException msg)).

(** The file operations of the loop body over a list of chunks. *)
Definition chunk_events (f : string) (chunks : list (list byte)) : list FileEvent :=
  flat_map (fun c => if nonempty c then [EvWrite f c; EvFlush f] else []) chunks.

(** The reading under which every supplied argument among [limit],
    [filter], [order], [cursor] of a listing call travels under that very
    name. *)
Definition listing_args_travel_by_name : Prop :=
  forall (self : Session) (l : Listing) (w : World) (q : Request)
         (k : string) (v : pyval),
    requests_sent (invoke (listing_call self l)) w = [q] ->
    In (k, Some v) (listing_args l) ->
    In (k, py_str v) (outgoing_query q).

(** The reading under which, for every [zip_id] and every [output_dir] that
    does not end with a separator, the file of [get_zip] lies beside
    [output_dir] with the directory's name fused into its own. *)
Definition fused_beside_output_dir : Prop :=
  forall zip_id output_dir : string,
    Path.ends_with_sep output_dir = false ->
    Path.dirname (output_dir +:+ zip_id +:+ ".zip") = Path.dirname output_dir
    /\ Path.basename (output_dir +:+ zip_id +:+ ".zip")
       = Path.basename output_dir +:+ zip_id +:+ ".zip".

(** ** Sample worlds *)

Definition sample_payload : json :=
  JDict [("data", JList [JDict [("type", JStr "file"); ("id", JStr "abc")]])].

Definition answer_200 : Response :=
  mkResponse 200 "payload" (Some sample_payload)
    [[x50; x4b]; []; [x03; x04; x14]; [x00]].

Definition answer_404 : Response :=
  mkResponse 404 "NotFoundError: resource not found" None [].

(** A transport that gives the same answer to every request, an empty disk
    on which every path can be opened. *)
Definition mock (r : Response) : World :=
  mkWorld (fun _ => Answer r) [] (fun _ => true) ∅ ∅ [] [].

Definition livehunt_session : Session :=
  mkSession (Some "k") "https://www.virustotal.com/api/v3/intelligence"
    [("x-apikey", Some "k"); ("Accept", Some "application/json")] None.

Definition retrohunt_session : Session :=
  mkSession (Some "k") "https://www.virustotal.com/api/v3/intelligence"
    [("x-apikey", Some "k"); ("Accept", Some "application/json")] None.

Definition zip_session : Session :=
  mkSession (Some "k") "https://www.virustotal.com/api/v3/intelligence"
    [("x-apikey", Some "k"); ("Accept", Some "application/json")] None.

(** ** Calls and the sessions they are made on *)

Inductive SessionClass := ClsLivehunt | ClsRetrohunt | ClsAccounts | ClsZipFiles.

(** [Class(api_key, proxies)]. *)
Definition construct (cls : SessionClass)
  : option string -> option proxy_map -> M Session :=
  match cls with
  | ClsLivehunt => Livehunt.__init__
  | ClsRetrohunt => Retrohunt.__init__
  | ClsAccounts => Accounts.__init__
  | ClsZipFiles => ZipFiles.__init__
  end.

(** The object a method call is made on, with its class; the module-level
    functions have none. *)
Definition receiver (c : Call) : option (SessionClass * Session) :=
  match c with
  | Search _ _ _ _ _ _ _ | FileFeed _ _ => None
  | LH_get_rulesets s _ _ _ _ _ | LH_create_rulset s _ | LH_update_ruleset s _ _
  | LH_delete_ruleset s _ | LH_get_notifications s _ _ _ _
  | LH_delete_notifications s _ | LH_delete_notification s _
  | LH_get_notification_files s _ _ => Some (ClsLivehunt, s)
  | RH_get_jobs s _ _ _ _ | RH_create_job s _ | RH_delete_job s _
  | RH_abort_job s _ | RH_get_matching_files s _ => Some (ClsRetrohunt, s)
  | AC_info_user s _ | AC_info_group s _ | AC_get_relationship s _ _ _ _ =>
      Some (ClsAccounts, s)
  | ZF_create_zip s _ | ZF_info_zip s _ | ZF_get_url s _ | ZF_get_zip s _ _ =>
      Some (ClsZipFiles, s)
  end.

(** A method call is made on an object that its class constructor returned. *)
Definition on_constructed_session (c : Call) : Prop :=
  match receiver c with
  | None => True
  | Some (cls, s) =>
      exists key px w, fst (construct cls key px w) = Returned s
  end.

(** The API key a call works with: its argument, or the session's. *)
Definition call_key (c : Call) : option string :=
  match c with
  | Search k _ _ _ _ _ _ | FileFeed k _ => k
  | _ => match receiver c with
         | Some (_, s) => api_key s
         | None => None
         end
  end.

(** The proxies a call was given: its argument, or the session's;
    [file_feed] takes none. *)
Definition call_proxies (c : Call) : option proxy_map :=
  match c with
  | Search _ _ _ _ _ _ p => p
  | _ => match receiver c with
         | Some (_, s) => proxies s
         | None => None
         end
  end.

(** [search] or [file_feed] called with [api_key=None]. *)
Definition stopped_by_key_check (c : Call) : bool :=
  match c with
  | Search None _ _ _ _ _ _ | FileFeed None _ => true
  | _ => false
  end.

(** The methods that end in [return json.dumps(response.json(), ...)]. *)
Definition returns_payload (c : Call) : bool :=
  match c with
  | LH_get_rulesets _ _ _ _ _ _ | LH_create_rulset _ _ | LH_update_ruleset _ _ _
  | LH_get_notifications _ _ _ _ _ | LH_get_notification_files _ _ _
  | RH_get_jobs _ _ _ _ _ | RH_create_job _ _ | RH_get_matching_files _ _
  | AC_info_user _ _ | AC_info_group _ _ | AC_get_relationship _ _ _ _ _
  | ZF_create_zip _ _ | ZF_info_zip _ _ | ZF_get_url _ _ => true
  | _ => false
  end.

(** The methods that end in [return None] right after the status check. *)
Definition returns_nothing (c : Call) : bool :=
  match c with
  | LH_delete_ruleset _ _ | LH_delete_notifications _ _
  | LH_delete_notification _ _ | RH_delete_job _ _ | RH_abort_job _ _ => true
  | _ => false
  end.

Definition is_get_zip (c : Call) : bool :=
  match c with
  | ZF_get_zip _ _ _ => true
  | _ => false
  end.

(** The calls whose [requests] call has no [proxies=] keyword: [file_feed],
    and [get_notifications] for a single notification. *)
Definition omits_proxies (c : Call) : bool :=
  match c with
  | FileFeed _ _ => true
  | LH_get_notifications _ id _ _ _ => truthy id
  | _ => false
  end.

(** The calls that hand the dictionary holding their optional arguments to
    [requests]: all but the look-ups by ID, which send [{'id': ...}] instead,
    and the listing of notifications, which sends no dictionary. *)
Definition forwards_optional_args (c : Call) : bool :=
  match c with
  | LH_get_rulesets _ id _ _ _ _ => negb (truthy id)
  | LH_get_notifications _ _ _ _ _ => false
  | RH_get_jobs _ id _ _ _ => negb (truthy id)
  | _ => true
  end.

(** The three wrappers that take an optional resource ID. *)
Inductive Lookup := Lookup_ruleset | Lookup_notification | Lookup_job.

Definition lookup_call (l : Lookup) (self : Session) (id : option string)
           (limit fltr order cursor : option pyval) : Call :=
  match l with
  | Lookup_ruleset => LH_get_rulesets self id limit fltr order cursor
  | Lookup_notification => LH_get_notifications self id limit fltr cursor
  | Lookup_job => RH_get_jobs self id limit fltr cursor
  end.

(** The collection path of each. *)
Definition lookup_collection (l : Lookup) : string :=
  match l with
  | Lookup_ruleset => "/hunting_rulesets"
  | Lookup_notification => "/hunting_notifications"
  | Lookup_job => "/Retrohunt_jobs"
  end.

Definition is_flush (e : FileEvent) : bool :=
  match e with
  | EvFlush _ => true
  | _ => false
  end.

(** The [data] argument of the calls that take one. *)
Definition call_body (c : Call) : option json :=
  match c with
  | LH_create_rulset _ d | LH_update_ruleset _ _ d | RH_create_job _ d
  | ZF_create_zip _ d => Some d
  | _ => None
  end.

(** A world in which no request can be delivered. *)
Definition unreachable : World :=
  mkWorld (fun _ => NetworkFailure "Connection refused") [] (fun _ => true)
          ∅ ∅ [] [].

(** A world that answers [r] but in which no file can be opened. *)
Definition read_only (r : Response) : World :=
  mkWorld (fun _ => Answer r) [] (fun _ => false) ∅ ∅ [] [].

Definition accounts_session : Session :=
  mkSession (Some "k") "https://www.virustotal.com/api/v3"
    [("x-apikey", Some "k"); ("Accept", Some "application/json")] None.

(** * Properties *)

(** ** [json.dumps] on small values *)

Example json_dumps_sorted :
  json_dumps (Some 4%nat) true
    (JDict [("b", JList [JInt 1; JInt 2]); ("a", JStr "x")])
  = String.concat JsonDumps.nl
      [ "{";
        "    " +:+ JsonDumps.quoted "a" +:+ ": " +:+ JsonDumps.quoted "x" +:+ ",";
        "    " +:+ JsonDumps.quoted "b" +:+ ": [";
        "        1,";
        "        2";
        "    ]";
        "}" ].
Proof. reflexivity. Qed.

Example json_dumps_compact :
  json_dumps_default (JDict [("b", JList [JInt 1; JInt 2]); ("a", JNull)])
  = "{" +:+ JsonDumps.quoted "b" +:+ ": [1, 2], "
    +:+ JsonDumps.quoted "a" +:+ ": null}".
Proof. reflexivity. Qed.

(** ** The shape shared by the wrappers *)

Lemma round_trip_run q k w :
  round_trip q k w =
  match network w q with
  | NetworkFailure msg => (Exited 1, record_line msg (record_request q w))
  | Answer r =>
      if status_code r =? 200
      then try_except_RequestException (k r) (record_request q w)
      else (Raised (Exception (text r)), record_request q w)
  end.
Proof.
  unfold round_trip, try_except_RequestException, requests_request, check_status,
    _raise_exception, raise, print, py_exit, mbind, M_bind, mret, M_ret.
  destruct (network w q) as [r|msg]; [|reflexivity].
  destruct (status_code r =? 200); simpl; [|reflexivity].
  destruct (k r (record_request q w)) as [[a|[]|c] w']; reflexivity.
Qed.

Lemma try_except_offline k r w :
  offline k -> try_except_RequestException (k r) w = k r w.
Proof.
  intros Hk. destruct (Hk r w) as [_ Hne].
  unfold try_except_RequestException.
  destruct (k r w) as [[a|[]|c] w']; try reflexivity.
  exfalso. eapply Hne. reflexivity.
Qed.

Lemma round_trip_net_log q k w :
  offline k -> net_log (snd (round_trip q k w)) = net_log w ++ [q].
Proof.
  intros Hk. rewrite round_trip_run.
  destruct (network w q) as [r|msg]; [|reflexivity].
  destruct (status_code r =? 200); [|reflexivity].
  rewrite try_except_offline by assumption.
  destruct (Hk r (record_request q w)) as [-> _]. reflexivity.
Qed.

Lemma round_trip_sent q k w :
  offline k -> requests_sent (round_trip q k) w = [q].
Proof.
  intros Hk. unfold requests_sent.
  rewrite round_trip_net_log by assumption. apply drop_app_length.
Qed.

Lemma offline_return_pretty : offline return_pretty.
Proof.
  intros r w. unfold return_pretty, response_json, raise, mbind, M_bind, mret, M_ret.
  destruct (json_body r); simpl; split; congruence.
Qed.

Lemma offline_discard_pretty : offline discard_pretty.
Proof.
  intros r w. unfold discard_pretty, response_json, raise, mbind, M_bind, mret, M_ret.
  destruct (json_body r); simpl; split; congruence.
Qed.

Lemma offline_return_None : offline (fun _ => mret PyNone).
Proof. intros r w. split; [reflexivity | discriminate]. Qed.

(** ** The download loop *)

Lemma world_eta w :
  mkWorld (network w) (net_log w) (openable w) (fs w) (buffers w) (fs_log w)
          (stdout w) = w.
Proof. destruct w; reflexivity. Qed.

Lemma write_chunk_run f c w d :
  fs w !! f = Some d -> buffers w !! f = Some [] ->
  ZipFiles.write_chunk f c w =
  (Returned tt,
   mkWorld (network w) (net_log w) (openable w)
           (<[f := d ++ c]> (fs w)) (buffers w)
           (fs_log w ++ chunk_events f [c]) (stdout w)).
Proof.
  intros Hfs Hbuf. unfold ZipFiles.write_chunk, chunk_events.
  destruct c as [|b c]; cbn [nonempty flat_map].
  - rewrite !app_nil_r, insert_id by assumption.
    unfold mret, M_ret. by rewrite world_eta.
  - unfold mbind, M_bind, file_write, file_flush. cbn.
    rewrite Hfs, Hbuf. cbn. rewrite lookup_insert_eq. cbn.
    rewrite insert_insert_eq, (insert_id (buffers w)) by assumption.
    rewrite <- !app_assoc. reflexivity.
Qed.

Lemma write_loop f chunks : forall w d,
  fs w !! f = Some d -> buffers w !! f = Some [] ->
  for_each chunks (ZipFiles.write_chunk f) w =
  (Returned tt,
   mkWorld (network w) (net_log w) (openable w)
           (<[f := d ++ concat chunks]> (fs w)) (buffers w)
           (fs_log w ++ chunk_events f chunks) (stdout w)).
Proof.
  induction chunks as [|c rest IH]; intros w d Hfs Hbuf.
  - simpl. rewrite !app_nil_r, insert_id by assumption.
    unfold mret, M_ret. by rewrite world_eta.
  - cbn [for_each]. unfold mbind, M_bind.
    rewrite (write_chunk_run f c w d) by assumption.
    erewrite IH; cycle 1.
    + cbn. apply lookup_insert_eq.
    + cbn. assumption.
    + cbn. rewrite insert_insert_eq.
      change (chunk_events f (c :: rest))
        with (chunk_events f [c] ++ chunk_events f rest).
      rewrite <- !app_assoc. reflexivity.
Qed.

Lemma iter_slices_concat n data : concat (iter_slices n data) = data.
Proof.
  funelim (iter_slices n data); simp iter_slices.
  - reflexivity.
  - simpl. by rewrite app_nil_r.
  - cbn [concat]. rewrite H. apply take_drop.
Qed.

Lemma iter_slices_nonempty n data :
  Forall (fun c => nonempty c = true) (iter_slices n data).
Proof.
  funelim (iter_slices n data); simp iter_slices.
  - constructor.
  - repeat constructor.
  - constructor; [reflexivity | assumption].
Qed.

(** Every slice holds at most [n] bytes, and every slice but the last holds
    exactly [n]. *)
Lemma iter_slices_sizes n data i c :
  (0 < n)%nat ->
  iter_slices n data !! i = Some c ->
  (0 < length c <= n)%nat /\
  (S i < length (iter_slices n data) -> length c = n)%nat.
Proof.
  intros Hn. revert i c.
  funelim (iter_slices n data); simp iter_slices; intros i c Hi.
  - discriminate.
  - lia.
  - destruct i as [|i]; simpl in Hi.
    + injection Hi as <-. split.
      * cbn [length]. rewrite length_take. lia.
      * cbn [length drop]. intros Hlt.
        destruct (iter_slices (S n) (drop n rest)) as [|c' l'] eqn:E;
          [simpl in Hlt; lia|].
        assert (Hne : drop n rest <> []).
        { intros Hnil. rewrite Hnil in E. simp iter_slices in E. discriminate. }
        assert (n < length rest)%nat.
        { destruct (Nat.lt_ge_cases n (length rest)) as [?|Hge]; [assumption|].
          exfalso. apply Hne. by apply drop_ge. }
        rewrite length_take. lia.
    + destruct (H Hn i c Hi) as [H1 H2]. split; [assumption|].
      cbn [length]. intros Hlt. apply H2. lia.
Qed.

Lemma chunk_events_nonempty f chunks :
  Forall (fun c => nonempty c = true) chunks ->
  chunk_events f chunks = flat_map (fun c => [EvWrite f c; EvFlush f]) chunks.
Proof.
  unfold chunk_events. induction 1 as [|c l Hc _ IH]; [reflexivity|].
  simpl. rewrite Hc, IH. reflexivity.
Qed.

(** [get_zip] run to its end on a status-200 answer and a path that can be
    opened: the whole resulting world. *)
Lemma get_zip_run self zip_id output_dir w r :
  let q := mkRequest GET (base_url self +:+ "/zip_files/" +:+ zip_id +:+ "/download")
             (headers self) None None (proxies self) in
  let path := output_dir +:+ zip_id +:+ ".zip" in
  network w q = Answer r ->
  status_code r = 200 ->
  openable w path = true ->
  ZipFiles.get_zip self zip_id output_dir w =
  (Returned PyNone,
   mkWorld (network w) (net_log w ++ [q]) (openable w)
           (<[path := content r]> (fs w)) (delete path (buffers w))
           (fs_log w ++ EvOpen path :: chunk_events path (iter_content r 1024)
                   ++ [EvClose path])
           (stdout w)).
Proof.
  intros q path Hnet Hst Hopen.
  change (ZipFiles.get_zip self zip_id output_dir)
    with (try_except_os_error (round_trip q (fun response =>
            with_open_wb path (fun f =>
              for_each (iter_content response 1024) (ZipFiles.write_chunk f)) ;;
            mret PyNone))).
  unfold try_except_os_error. rewrite round_trip_run, Hnet, Hst. cbn [Z.eqb Pos.eqb].
  unfold try_except_RequestException, mbind, M_bind, with_open_wb, open_wb.
  cbn [openable record_request]. rewrite Hopen.
  erewrite write_loop; cycle 1.
  - cbn. apply lookup_insert_eq.
  - cbn. apply lookup_insert_eq.
  - cbn. unfold file_close, mret, M_ret. cbn.
    rewrite !lookup_insert_eq, ?insert_insert_eq, ?delete_insert_eq. cbn.
    rewrite app_nil_r. unfold iter_content at 1. rewrite iter_slices_concat.
    rewrite <- !app_assoc. reflexivity.
Qed.

Lemma sent_try_except_os_error {A} (m : M A) w :
  requests_sent (try_except_os_error m) w = requests_sent m w.
Proof.
  unfold requests_sent, try_except_os_error.
  destruct (m w) as [[a|[]|c] w']; reflexivity.
Qed.

Lemma offline_download path :
  offline (fun response =>
    with_open_wb path (fun f =>
      for_each (iter_content response 1024) (ZipFiles.write_chunk f)) ;;
    mret PyNone).
Proof.
  intros r w. unfold mbind, M_bind, with_open_wb, open_wb.
  destruct (openable w path).
  - erewrite write_loop; cycle 1.
    + cbn. apply lookup_insert_eq.
    + cbn. apply lookup_insert_eq.
    + cbn. split; [reflexivity | discriminate].
  - cbn. split; [reflexivity | discriminate].
Qed.

(** ** Bringing a wrapper into the shared shape *)

Ltac unfold_wrappers :=
  cbn [invoke id_call listing_call] in *;
  unfold search, file_feed,
    Livehunt.get_rulesets, Livehunt.create_rulset, Livehunt.update_ruleset,
    Livehunt.delete_ruleset, Livehunt.get_notifications,
    Livehunt.delete_notifications, Livehunt.delete_notification,
    Livehunt.get_notification_files,
    Retrohunt.get_jobs, Retrohunt.create_job, Retrohunt.delete_job,
    Retrohunt.abort_job, Retrohunt.get_matching_files,
    Accounts.info_user, Accounts.info_group, Accounts.get_relationship,
    ZipFiles.create_zip, ZipFiles.info_zip, ZipFiles.get_url, ZipFiles.get_zip,
    requests_get, requests_post, requests_patch, requests_delete in *.

Ltac fold_round_trip :=
  repeat match goal with
  | H : context [try_except_RequestException
         (mbind (fun r => mbind (fun _ => @?k r) (check_status r))
                (requests_request ?q))] |- _ =>
      let t := constr:(try_except_RequestException
                (mbind (fun r => mbind (fun _ => k r) (check_status r))
                       (requests_request q))) in
      let t' := eval cbv beta in t in
      change t' with (round_trip q k) in H
  | |- context [try_except_RequestException
         (mbind (fun r => mbind (fun _ => @?k r) (check_status r))
                (requests_request ?q))] =>
      let t := constr:(try_except_RequestException
                (mbind (fun r => mbind (fun _ => k r) (check_status r))
                       (requests_request q))) in
      let t' := eval cbv beta in t in
      change t' with (round_trip q k)
  end.

Ltac solve_offline :=
  first [ apply offline_return_pretty | apply offline_discard_pretty
        | apply offline_return_None | apply offline_download ].

(** Case analysis that leaves every wrapper as a [round_trip]; the calls
    stopped by the key check are handed to [tac]. *)
Ltac wrapper_cases c :=
  destruct c; unfold_wrappers;
  repeat match goal with
  | |- context [if truthy ?x then _ else _] => destruct (truthy x) eqn:?
  | H : context [if truthy ?x then _ else _] |- _ => destruct (truthy x) eqn:?
  end;
  fold_round_trip;
  rewrite ?sent_try_except_os_error in *.

Lemma sent_raise {A} (e : exn) w : requests_sent (@raise A e) w = [].
Proof. unfold requests_sent, raise. cbn. apply drop_all. Qed.

(** On any network: if the call issued [q] and [q] is answered with a status
    other than 200, the call raises with the text of the body. *)
Lemma non_200_raises_on_sent_request
      (c : Call) (w : World) (q : Request) (r : Response) :
  requests_sent (invoke c) w = [q] ->
  network w q = Answer r ->
  status_code r <> 200 ->
  fst (invoke c w) = Raised (Exception (text r)).
Proof.
  intros Hsent Hnet Hst.
  apply Z.eqb_neq in Hst.
  wrapper_cases c;
    try match goal with
    | k : option string |- _ =>
        destruct k; [| rewrite sent_raise in Hsent; discriminate]
    end;
    fold_round_trip;
    rewrite round_trip_sent in Hsent by solve_offline;
    injection Hsent as <-;
    unfold try_except_os_error;
    rewrite round_trip_run, Hnet, Hst; reflexivity.
Qed.

(** C2. Against a transport that answers every request with a response [r]
    whose status is not 200, every wrapper call that gets past the key check
    of [search] and [file_feed] ends by raising an exception whose message is
    the text of the body of [r]; no handler of the wrapper intercepts it. *)
Theorem non_200_raises_body_text (c : Call) (w : World) (r : Response) :
  stopped_by_key_check c = false ->
  (forall q, network w q = Answer r) ->
  status_code r <> 200 ->
  fst (invoke c w) = Raised (Exception (text r)).
Proof.
  intros Hkey Hnet Hst.
  apply Z.eqb_neq in Hst.
  wrapper_cases c; cbn [stopped_by_key_check] in Hkey;
    try match type of Hkey with
    | context [match ?k with Some _ => _ | None => _ end] =>
        destruct k; [| discriminate Hkey]
    end;
    fold_round_trip;
    unfold try_except_os_error;
    rewrite round_trip_run, Hnet, Hst; reflexivity.
Qed.

Lemma non_200_raises_body_text_witness :
  fst (invoke (LH_delete_ruleset livehunt_session "r1") (mock answer_404))
  = Raised (Exception "NotFoundError: resource not found").
Proof.
  apply (non_200_raises_body_text (LH_delete_ruleset livehunt_session "r1")
           (mock answer_404) answer_404).
  - reflexivity.
  - intros q. reflexivity.
  - simpl. lia.
Defined.

(** C4. A query argument that is absent ([None]) never appears as a key in
    the query of the request that leaves: whatever the wrapper, if the
    argument under key [k] was not given, the outgoing query has no key
    [k]. *)
Theorem absent_argument_not_in_query (c : Call) (w : World) (q : Request) (k : string) :
  requests_sent (invoke c) w = [q] ->
  In (k, None) (optional_query_args c) ->
  ~ In k (map fst (outgoing_query q)).
Proof.
  intros Hsent Hin.
  wrapper_cases c;
    try match goal with
    | k : option string |- _ =>
        destruct k; [| rewrite sent_raise in Hsent; discriminate]
    end;
    fold_round_trip;
    rewrite round_trip_sent in Hsent by solve_offline;
    injection Hsent as <-;
    cbn [optional_query_args In] in Hin;
    try contradiction;
    unfold outgoing_query; cbn [req_params];
    repeat match goal with
    | o : option pyval |- _ => destruct o
    | o : option string |- _ => destruct o
    end;
    cbn [encode_params map fst fmap option_fmap option_map In];
    intuition congruence.
Qed.

Lemma absent_argument_not_in_query_witness :
  ~ In "limit"
      (map fst (outgoing_query
         (mkRequest GET
            "https://www.virustotal.com/api/v3/intelligence/hunting_rulesets"
            [("x-apikey", Some "k"); ("Accept", Some "application/json")]
            (Some [("limit", None); ("fltr", None);
                   ("order", Some (PyStr "name+")); ("cursor", None)])
            None None))).
Proof.
  apply (absent_argument_not_in_query
           (LH_get_rulesets livehunt_session None None None
              (Some (PyStr "name+")) None)
           (mock answer_200)).
  - reflexivity.
  - simpl. auto.
Defined.

(** ** Listing wrappers *)

(** [get_rulesets(fltr="tag:apt")] issues a request whose query has the
    filter under the key [fltr]; no key [filter] leaves. *)
Lemma filter_argument_not_sent_as_filter :
  requests_sent (invoke (listing_call livehunt_session
                   (List_rulesets None (Some (PyStr "tag:apt")) None None)))
                (mock answer_200)
  = [mkRequest GET "https://www.virustotal.com/api/v3/intelligence/hunting_rulesets"
       [("x-apikey", Some "k"); ("Accept", Some "application/json")]
       (Some [("limit", None); ("fltr", Some (PyStr "tag:apt"));
              ("order", None); ("cursor", None)])
       None None]
  /\ ~ listing_args_travel_by_name.
Proof.
  split; [reflexivity|].
  intros Hall.
  specialize (Hall livehunt_session
                (List_rulesets None (Some (PyStr "tag:apt")) None None)
                (mock answer_200) _ "filter" (PyStr "tag:apt") eq_refl).
  cbn in Hall.
  destruct Hall as [Heq|[]]; [right; left; reflexivity | discriminate Heq].
Qed.

(** The sibling listings do pass their dictionary on.  For [get_rulesets]
    and [get_jobs] called without a resource ID, every supplied argument is
    in the outgoing query under the key the wrapper uses: [limit], [fltr],
    [order] ([get_rulesets] only) and [cursor]. *)
Theorem listing_arguments_sent (self : Session) (w : World) (q : Request)
        (k : string) (v : pyval) :
  (forall ruleset_id limit fltr order cursor,
      truthy ruleset_id = false ->
      requests_sent (Livehunt.get_rulesets self ruleset_id limit fltr order cursor) w
      = [q] ->
      In (k, Some v) [("limit", limit); ("fltr", fltr); ("order", order);
                      ("cursor", cursor)] ->
      In (k, py_str v) (outgoing_query q))
  /\
  (forall job_id limit fltr cursor,
      truthy job_id = false ->
      requests_sent (Retrohunt.get_jobs self job_id limit fltr cursor) w = [q] ->
      In (k, Some v) [("limit", limit); ("fltr", fltr); ("cursor", cursor)] ->
      In (k, py_str v) (outgoing_query q)).
Proof.
  split; intros *; intros Hid Hsent Hin;
    unfold_wrappers; rewrite Hid in Hsent; fold_round_trip;
    rewrite round_trip_sent in Hsent by solve_offline;
    injection Hsent as <-;
    unfold outgoing_query; cbn [req_params];
    repeat match goal with o : option pyval |- _ => destruct o end;
    cbn [encode_params In] in *;
    intuition (try congruence);
    repeat match goal with
    | H : (_, _) = (_, _) |- _ => injection H as <- <-
    end; auto.
Qed.

Lemma listing_arguments_sent_witness :
  In ("fltr", "tag:apt")
     (outgoing_query
        (mkRequest GET "https://www.virustotal.com/api/v3/intelligence/hunting_rulesets"
           [("x-apikey", Some "k"); ("Accept", Some "application/json")]
           (Some [("limit", Some (PyInt 10)); ("fltr", Some (PyStr "tag:apt"));
                  ("order", None); ("cursor", None)])
           None None)).
Proof.
  refine (proj1 (listing_arguments_sent livehunt_session (mock answer_200) _
                   "fltr" (PyStr "tag:apt"))
            None (Some (PyInt 10)) (Some (PyStr "tag:apt")) None None _ _ _).
  - reflexivity.
  - reflexivity.
  - simpl. auto.
Defined.

(** C5, evaluated.  [get_notifications(limit=10, fltr="tag:apt", cursor="c1")]
    builds its [params] dictionary and then calls [requests.get] without it:
    the request that leaves has no query parameter at all.  The same
    arguments given to [get_rulesets] and [get_jobs] are all sent. *)
Lemma get_notifications_sends_no_query :
  requests_sent
    (invoke (listing_call livehunt_session
               (List_notifications (Some (PyInt 10)) (Some (PyStr "tag:apt"))
                                   (Some (PyStr "c1")))))
    (mock answer_200)
  = [mkRequest GET
       "https://www.virustotal.com/api/v3/intelligence/hunting_notifications"
       [("x-apikey", Some "k"); ("Accept", Some "application/json")]
       None None None]
  /\ outgoing_query
       (mkRequest GET
          "https://www.virustotal.com/api/v3/intelligence/hunting_notifications"
          [("x-apikey", Some "k"); ("Accept", Some "application/json")]
          None None None) = []
  /\ map outgoing_query
       (requests_sent
          (invoke (listing_call livehunt_session
                     (List_rulesets (Some (PyInt 10)) (Some (PyStr "tag:apt"))
                                    None (Some (PyStr "c1")))))
          (mock answer_200))
     = [[("limit", "10"); ("fltr", "tag:apt"); ("cursor", "c1")]]
  /\ map outgoing_query
       (requests_sent
          (invoke (listing_call retrohunt_session
                     (List_jobs (Some (PyInt 10)) (Some (PyStr "tag:apt"))
                                (Some (PyStr "c1")))))
          (mock answer_200))
     = [[("limit", "10"); ("fltr", "tag:apt"); ("cursor", "c1")]].
Proof. repeat split. Qed.

(** ** Paths *)

(** C6, evaluated.  A session built by [Retrohunt("k")] sends all five
    wrappers to [/intelligence/Retrohunt_jobs...], with a capital R; the path
    [/intelligence/retrohunt_jobs] is never requested. *)
Lemma retrohunt_paths_are_capitalised :
  fst (Retrohunt.__init__ (Some "k") None (mock answer_200))
  = Returned retrohunt_session
  /\ map url
       (requests_sent
          (Retrohunt.get_jobs retrohunt_session None None None None ;;
           Retrohunt.get_jobs retrohunt_session (Some "j1") None None None ;;
           Retrohunt.create_job retrohunt_session JNull ;;
           Retrohunt.delete_job retrohunt_session "j1" ;;
           Retrohunt.abort_job retrohunt_session "j1" ;;
           Retrohunt.get_matching_files retrohunt_session "j1")
          (mock answer_200))
     = [ "https://www.virustotal.com/api/v3/intelligence/Retrohunt_jobs";
         "https://www.virustotal.com/api/v3/intelligence/Retrohunt_jobs/j1";
         "https://www.virustotal.com/api/v3/intelligence/Retrohunt_jobs";
         "https://www.virustotal.com/api/v3/intelligence/Retrohunt_jobs/j1";
         "https://www.virustotal.com/api/v3/intelligence/Retrohunt_jobs/j1/abort";
         "https://www.virustotal.com/api/v3/intelligence/Retrohunt_jobs/j1/matching_files" ]
  /\ url (mkRequest GET
            (base_url retrohunt_session +:+ "/Retrohunt_jobs")
            (headers retrohunt_session) None None None)
     <> "https://www.virustotal.com/api/v3/intelligence/retrohunt_jobs".
Proof. split; [reflexivity | split; [reflexivity | discriminate]]. Qed.

(** The same for any session [Retrohunt(key, proxies)] and any arguments. *)
Lemma retrohunt_urls (key : option string) (px : option proxy_map)
      (w0 w : World) (self : Session) :
  fst (Retrohunt.__init__ key px w0) = Returned self ->
  (forall job_id limit fltr cursor,
      map url (requests_sent (Retrohunt.get_jobs self job_id limit fltr cursor) w)
      = [if truthy job_id
         then "https://www.virustotal.com/api/v3/intelligence/Retrohunt_jobs/"
              +:+ format_arg job_id
         else "https://www.virustotal.com/api/v3/intelligence/Retrohunt_jobs"])
  /\ (forall data,
         map url (requests_sent (Retrohunt.create_job self data) w)
         = ["https://www.virustotal.com/api/v3/intelligence/Retrohunt_jobs"])
  /\ (forall job_id,
         map url (requests_sent (Retrohunt.delete_job self job_id) w)
         = ["https://www.virustotal.com/api/v3/intelligence/Retrohunt_jobs/"
            +:+ job_id])
  /\ (forall job_id,
         map url (requests_sent (Retrohunt.abort_job self job_id) w)
         = ["https://www.virustotal.com/api/v3/intelligence/Retrohunt_jobs/"
            +:+ job_id +:+ "/abort"])
  /\ (forall job_id,
         map url (requests_sent (Retrohunt.get_matching_files self job_id) w)
         = ["https://www.virustotal.com/api/v3/intelligence/Retrohunt_jobs/"
            +:+ job_id +:+ "/matching_files"]).
Proof.
  cbn. intros [= <-].
  repeat match goal with |- _ /\ _ => split end; intros; unfold_wrappers;
    try match goal with |- context [truthy ?x] => destruct (truthy x) end;
    fold_round_trip; rewrite round_trip_sent by solve_offline; reflexivity.
Qed.

Lemma append_cons (x : ascii) (a b : string) :
  String x a +:+ b = String x (a +:+ b).
Proof. reflexivity. Qed.

Lemma append_assoc (a b c : string) : (a +:+ b) +:+ c = a +:+ b +:+ c.
Proof.
  induction a as [|x a IH]; [reflexivity|].
  by rewrite !append_cons, IH.
Qed.

Lemma append_empty_r (a : string) : a +:+ "" = a.
Proof.
  induction a as [|x a IH]; [reflexivity|].
  by rewrite append_cons, IH.
Qed.

Lemma truthy_Some (s : string) : s <> "" -> truthy (Some s) = true.
Proof. intros Hne. destruct s; [congruence | reflexivity]. Qed.

(** C8, the wording refuted.  [delete_ruleset("a/b")] requests
    [.../hunting_rulesets/a/b]: the reserved character goes out as it is, the
    escaped ID [a%2Fb] is no segment of the URL. *)
Lemma reserved_id_sent_unescaped :
  map url (requests_sent (invoke (id_call Id_delete_ruleset livehunt_session "a/b"))
             (mock answer_200))
  = ["https://www.virustotal.com/api/v3/intelligence/hunting_rulesets/a/b"]
  /\ Path.url_escaped "a/b" = "a%2Fb"
  /\ Path.segments
       "https://www.virustotal.com/api/v3/intelligence/hunting_rulesets/a/b"
     = ["https:"; ""; "www.virustotal.com"; "api"; "v3"; "intelligence";
        "hunting_rulesets"; "a"; "b"]
  /\ ~ In (Path.url_escaped "a/b")
         (Path.segments
            "https://www.virustotal.com/api/v3/intelligence/hunting_rulesets/a/b").
Proof.
  repeat split; try reflexivity.
  cbn. intuition discriminate.
Qed.

Lemma append_nonempty (a b : string) : b <> "" -> a +:+ b <> "".
Proof. destruct a; [trivial | discriminate]. Qed.

Lemma ends_with_sep_append (a b : string) :
  b <> "" -> Path.ends_with_sep (a +:+ b) = Path.ends_with_sep b.
Proof.
  intros Hb. induction a as [|x a IH]; [reflexivity|].
  rewrite append_cons. cbn [Path.ends_with_sep].
  destruct (a +:+ b) eqn:E; [|exact IH].
  exfalso. by apply (append_nonempty a b).
Qed.

(** C8, amended.  Every wrapper that takes a resource ID, except
    [delete_notification], has a prefix and a suffix, fixed by the wrapper and
    the session, such that the URL handed to [requests] for any non-empty ID
    is the prefix, the ID exactly as given, and the suffix: the ID is
    interpolated once, between the separator that ends the prefix and the
    end of the URL or the separator that starts the suffix, and it is never
    escaped.  [delete_notification] does not put its ID into the URL at all:
    it requests the collection and sends the ID as the query parameter [id]
    only. *)
Theorem id_interpolated_verbatim (e : IdWrapper) (self : Session) :
  if id_in_path e
  then exists prefix suffix : string,
         Path.ends_with_sep prefix = true
         /\ (suffix = "" \/ exists rest, suffix = "/" +:+ rest)
         /\ forall (id : string) (w : World) (q : Request),
              id <> "" ->
              requests_sent (invoke (id_call e self id)) w = [q] ->
              url q = prefix +:+ id +:+ suffix
  else forall (id : string) (w : World) (q : Request),
         requests_sent (invoke (id_call e self id)) w = [q] ->
         url q = base_url self +:+ "/hunting_notifications"
         /\ outgoing_query q = [("id", id)].
Proof.
  destruct e; cbn [id_in_path]; unfold_wrappers;
  try (match goal with
       | |- context [base_url self +:+ ?p +:+ _ +:+ ?s] =>
           exists (base_url self +:+ p), s
       | |- context [base_url self +:+ ?p +:+ _] =>
           exists (base_url self +:+ p), ""
       end;
       split; [rewrite ends_with_sep_append by discriminate; reflexivity|];
       split; [first [left; reflexivity | right; eexists; reflexivity]|]);
  intros id w q;
  try (intros Hne Hsent; try rewrite (truthy_Some id Hne) in Hsent);
  try intros Hsent;
  cbn [format_arg] in Hsent;
  fold_round_trip; rewrite ?sent_try_except_os_error in Hsent;
  rewrite round_trip_sent in Hsent by solve_offline;
  injection Hsent as <-; cbn [url];
  first [ rewrite ?append_assoc, ?append_empty_r; reflexivity
        | split; reflexivity ].
Qed.

Lemma id_interpolated_verbatim_witness :
  exists prefix suffix : string,
    "https://www.virustotal.com/api/v3/intelligence/Retrohunt_jobs/j1/abort"
    = prefix +:+ "j1" +:+ suffix.
Proof.
  pose proof (id_interpolated_verbatim Id_abort_job retrohunt_session) as H.
  cbn [id_in_path] in H. destruct H as (prefix & suffix & _ & _ & H).
  exists prefix, suffix.
  apply (H "j1" (mock answer_200)
           (mkRequest POST
              "https://www.virustotal.com/api/v3/intelligence/Retrohunt_jobs/j1/abort"
              [("x-apikey", Some "k"); ("Accept", Some "application/json")]
              None None None)).
  - discriminate.
  - reflexivity.
Defined.

(** ** The two notification deletions *)

(** C9. For a session built by [Livehunt(key, proxies)] and any string [v],
    [delete_notifications(v)] and [delete_notification(v)] each issue one
    request; both are [DELETE] on [/intelligence/hunting_notifications] with the
    session's headers and proxies and no body, and they differ only in the
    name of their single query parameter: [tag] for the former, [id] for the
    latter. *)
Theorem delete_notification_differs_in_key_only
        (key : option string) (px : option proxy_map) (v : string)
        (w0 w : World) (self : Session) :
  fst (Livehunt.__init__ key px w0) = Returned self ->
  exists q : Request,
    requests_sent (Livehunt.delete_notifications self v) w = [q]
    /\ requests_sent (Livehunt.delete_notification self v) w
       = [mkRequest (method q) (url q) (req_headers q)
            (Some [("id", Some (PyStr v))]) (req_data q) (req_proxies q)]
    /\ req_params q = Some [("tag", Some (PyStr v))]
    /\ method q = DELETE
    /\ url q = "https://www.virustotal.com/api/v3/intelligence/hunting_notifications"
    /\ req_headers q = [("x-apikey", key); ("Accept", Some "application/json")]
    /\ req_data q = None
    /\ req_proxies q = px.
Proof.
  unfold Livehunt.__init__. destruct key as [k|]; [|discriminate].
  cbn. intros [= <-].
  eexists. unfold_wrappers. fold_round_trip.
  rewrite !round_trip_sent by solve_offline.
  repeat split; reflexivity.
Qed.

Lemma delete_notification_differs_in_key_only_witness :
  exists q : Request,
    requests_sent (Livehunt.delete_notifications livehunt_session "n1")
      (mock answer_200) = [q]
    /\ requests_sent (Livehunt.delete_notification livehunt_session "n1")
         (mock answer_200)
       = [mkRequest (method q) (url q) (req_headers q)
            (Some [("id", Some (PyStr "n1"))]) (req_data q) (req_proxies q)]
    /\ req_params q = Some [("tag", Some (PyStr "n1"))]
    /\ method q = DELETE
    /\ url q = "https://www.virustotal.com/api/v3/intelligence/hunting_notifications"
    /\ req_headers q = [("x-apikey", Some "k"); ("Accept", Some "application/json")]
    /\ req_data q = None
    /\ req_proxies q = None.
Proof.
  apply (delete_notification_differs_in_key_only (Some "k") None "n1"
           (mock answer_200) (mock answer_200) livehunt_session).
  reflexivity.
Defined.

(** ** What comes back on status 200 *)

Lemma round_trip_return_pretty q w r P :
  network w q = Answer r -> status_code r = 200 -> json_body r = Some P ->
  round_trip q return_pretty w
  = (Returned (PyString (json_dumps (Some 4%nat) true P)), record_request q w).
Proof.
  intros Hnet Hst Hj. rewrite round_trip_run, Hnet, Hst. cbn [Z.eqb Pos.eqb].
  rewrite try_except_offline by apply offline_return_pretty.
  unfold return_pretty, response_json. rewrite Hj. reflexivity.
Qed.

Lemma round_trip_discard_pretty q w r P :
  network w q = Answer r -> status_code r = 200 -> json_body r = Some P ->
  round_trip q discard_pretty w = (Returned PyNone, record_request q w).
Proof.
  intros Hnet Hst Hj. rewrite round_trip_run, Hnet, Hst. cbn [Z.eqb Pos.eqb].
  rewrite try_except_offline by apply offline_discard_pretty.
  unfold discard_pretty, response_json. rewrite Hj. reflexivity.
Qed.

(** The methods documented to return a payload hand back the answer's JSON
    pretty-printed with sorted keys. *)
Lemma get_rulesets_returns_pretty self ruleset_id limit fltr order cursor w r P :
  (forall q, network w q = Answer r) ->
  status_code r = 200 -> json_body r = Some P ->
  fst (Livehunt.get_rulesets self ruleset_id limit fltr order cursor w)
  = Returned (PyString (json_dumps (Some 4%nat) true P)).
Proof.
  intros Hnet Hst Hj. unfold_wrappers.
  destruct (truthy ruleset_id); fold_round_trip;
    erewrite round_trip_return_pretty by eauto; reflexivity.
Qed.

(** [search] and [file_feed] compute the same text and drop it. *)
Lemma search_returns_None api_key query order limit cursor descriptors_only
      proxies w r P :
  (forall q, network w q = Answer r) ->
  status_code r = 200 -> json_body r = Some P ->
  fst (search (Some api_key) query order limit cursor descriptors_only proxies w)
  = Returned PyNone.
Proof.
  intros Hnet Hst Hj. unfold_wrappers. fold_round_trip.
  erewrite round_trip_discard_pretty by eauto. reflexivity.
Qed.

Lemma file_feed_returns_None api_key time w r P :
  (forall q, network w q = Answer r) ->
  status_code r = 200 -> json_body r = Some P ->
  fst (file_feed (Some api_key) time w) = Returned PyNone.
Proof.
  intros Hnet Hst Hj. unfold_wrappers. fold_round_trip.
  erewrite round_trip_discard_pretty by eauto. reflexivity.
Qed.

(** C1, evaluated.  Against a transport answering 200 with [sample_payload],
    [search(api_key="k", query="type:peexe", limit=10)] and
    [file_feed("k", "201912010802")] return [None], not the payload, while
    [get_rulesets()] on the same transport returns the pretty-printed
    payload. *)
Lemma search_and_file_feed_drop_payload :
  fst (search (Some "k") "type:peexe" None (Some (PyInt 10)) None None None
         (mock answer_200)) = Returned PyNone
  /\ fst (file_feed (Some "k") "201912010802" (mock answer_200)) = Returned PyNone
  /\ fst (Livehunt.get_rulesets livehunt_session None None None None None
            (mock answer_200))
     = Returned (PyString (json_dumps (Some 4%nat) true sample_payload))
  /\ Returned PyNone
     <> Returned (PyString (json_dumps (Some 4%nat) true sample_payload)).
Proof. repeat split; try reflexivity. discriminate. Qed.

(** ** The key check *)

(** [search], [file_feed] and [Livehunt] refuse a missing key before anything
    is sent. *)
Lemma missing_key_refused w :
  (forall query order limit cursor descriptors_only proxies,
      search None query order limit cursor descriptors_only proxies w
      = (Raised (Exception "You must provide a valid API key"), w))
  /\ (forall time,
         file_feed None time w
         = (Raised (Exception "You must provide a valid API key"), w))
  /\ (forall proxies,
         Livehunt.__init__ None proxies w
         = (Raised (Exception "You must provide a valid API key"), w)).
Proof. repeat split. Qed.

(** C3, evaluated.  [Retrohunt()], [Accounts()] and [ZipFiles()] with no key
    return a session whose [x-apikey] header is [None], and a wrapper called
    on it goes to the network. *)
Lemma sessions_accept_missing_key :
  fst (Retrohunt.__init__ None None (mock answer_200))
  = Returned (mkSession None "https://www.virustotal.com/api/v3/intelligence"
                [("x-apikey", None); ("Accept", Some "application/json")] None)
  /\ fst (Accounts.__init__ None None (mock answer_200))
     = Returned (mkSession None "https://www.virustotal.com/api/v3"
                   [("x-apikey", None); ("Accept", Some "application/json")] None)
  /\ fst (ZipFiles.__init__ None None (mock answer_200))
     = Returned (mkSession None "https://www.virustotal.com/api/v3/intelligence"
                   [("x-apikey", None); ("Accept", Some "application/json")] None)
  /\ requests_sent
       (self ← Retrohunt.__init__ None None;
        Retrohunt.get_jobs self None None None None)
       (mock answer_200)
     = [mkRequest GET "https://www.virustotal.com/api/v3/intelligence/Retrohunt_jobs"
          [("x-apikey", None); ("Accept", Some "application/json")]
          (Some [("limit", None); ("fltr", None); ("cursor", None)])
          None None]
  /\ fst (Livehunt.__init__ None None (mock answer_200))
     = Raised (Exception "You must provide a valid API key").
Proof. repeat split. Qed.

(** ** Where [get_zip] writes *)

Lemma contains_sep_append (a b : string) :
  Path.contains_sep (a +:+ b) = Path.contains_sep a || Path.contains_sep b.
Proof.
  induction a as [|x a IH]; [reflexivity|].
  rewrite append_cons. cbn [Path.contains_sep]. rewrite IH. apply orb_assoc.
Qed.

Lemma dirname_append (d z : string) :
  Path.contains_sep z = false -> Path.dirname (d +:+ z) = Path.dirname d.
Proof.
  intros Hz. induction d as [|x d IH].
  - change (Path.dirname z = ""). destruct z as [|y z]; [reflexivity|].
    cbn [Path.contains_sep Path.dirname] in Hz |- *.
    apply orb_false_elim in Hz as [-> ->]. reflexivity.
  - rewrite append_cons. cbn [Path.dirname].
    rewrite contains_sep_append, Hz, orb_false_r, IH. reflexivity.
Qed.

Lemma basename_no_sep (z : string) :
  Path.contains_sep z = false -> Path.basename z = z.
Proof.
  destruct z as [|y z]; [reflexivity|].
  cbn [Path.contains_sep Path.basename]. intros Hz.
  apply orb_false_elim in Hz as [-> ->]. reflexivity.
Qed.

Lemma basename_append (d z : string) :
  Path.contains_sep z = false ->
  Path.basename (d +:+ z) = Path.basename d +:+ z.
Proof.
  intros Hz. induction d as [|x d IH].
  - change (Path.basename z = z). by apply basename_no_sep.
  - rewrite append_cons. cbn [Path.basename].
    rewrite contains_sep_append, Hz, orb_false_r, IH.
    destruct (Path.contains_sep d); [reflexivity|].
    destruct (Path.is_sep x); reflexivity.
Qed.

Lemma basename_nonempty (d : string) :
  Path.ends_with_sep d = false -> d <> "" -> Path.basename d <> "".
Proof.
  induction d as [|x d IH]; [congruence|].
  intros Hend _. cbn [Path.basename].
  destruct d as [|y d].
  - cbn in Hend |- *. rewrite Hend. discriminate.
  - destruct (Path.contains_sep (String y d)) eqn:Hs.
    + apply IH; [exact Hend | discriminate].
    + destruct (Path.is_sep x); discriminate.
Qed.

Lemma length_append (a b : string) :
  String.length (a +:+ b) = (String.length a + String.length b)%nat.
Proof.
  induction a as [|x a IH]; [reflexivity|].
  rewrite append_cons. cbn [String.length]. by rewrite IH.
Qed.

Lemma not_inside_directory (d name : string) : d +:+ name <> d +:+ "/" +:+ name.
Proof.
  intros Heq. apply String.app_inj in Heq.
  apply (f_equal String.length) in Heq.
  rewrite length_append in Heq. cbn in Heq. lia.
Qed.

(** C7. On a status-200 answer whose body arrived in any chunks whatever,
    and an output path that can be opened, [get_zip] returns normally and:
    the file holds exactly the bytes of the body, in order; it was written
    as open, then one write followed by one flush per slice, then close,
    the slices being consecutive pieces of the body of 1024 bytes each (the
    last one possibly shorter, none empty); one request was sent; nothing was
    printed, no other file changed and no handle is left open. *)
Theorem get_zip_streams_body_to_file
        (self : Session) (zip_id output_dir : string) (w : World) (r : Response) :
  let q := mkRequest GET (base_url self +:+ "/zip_files/" +:+ zip_id +:+ "/download")
             (headers self) None None (proxies self) in
  let path := output_dir +:+ zip_id +:+ ".zip" in
  let run := ZipFiles.get_zip self zip_id output_dir in
  let slices := iter_content r 1024 in
  network w q = Answer r ->
  status_code r = 200 ->
  openable w path = true ->
  fst (run w) = Returned PyNone
  /\ fs (snd (run w)) !! path = Some (concat (raw r))
  /\ file_events run w
     = EvOpen path :: flat_map (fun c => [EvWrite path c; EvFlush path]) slices
       ++ [EvClose path]
  /\ concat slices = concat (raw r)
  /\ (forall i c, slices !! i = Some c ->
        (0 < length c <= 1024)%nat /\
        (S i < length slices -> length c = 1024)%nat)
  /\ requests_sent run w = [q]
  /\ stdout (snd (run w)) = stdout w
  /\ (forall p, p <> path -> fs (snd (run w)) !! p = fs w !! p)
  /\ buffers (snd (run w)) = delete path (buffers w).
Proof.
  intros q path run slices Hnet Hst Hopen.
  unfold run, file_events, requests_sent.
  rewrite (get_zip_run self zip_id output_dir w r Hnet Hst Hopen).
  fold q. fold path. cbn [fst snd fs fs_log net_log stdout buffers].
  repeat match goal with |- _ /\ _ => split end.
  - reflexivity.
  - apply lookup_insert_eq.
  - rewrite drop_app_length.
    rewrite chunk_events_nonempty by apply iter_slices_nonempty. reflexivity.
  - apply iter_slices_concat.
  - intros i c Hi. apply (iter_slices_sizes 1024 (content r) i c); [lia | exact Hi].
  - apply drop_app_length.
  - reflexivity.
  - intros p Hp. by apply lookup_insert_ne.
  - reflexivity.
Qed.

Lemma get_zip_streams_body_to_file_witness :
  fs (snd (ZipFiles.get_zip zip_session "z1" "/tmp/" (mock answer_200)))
    !! "/tmp/z1.zip"
  = Some [x50; x4b; x03; x04; x14; x00].
Proof.
  apply (proj1 (proj2 (get_zip_streams_body_to_file zip_session "z1" "/tmp/"
                         (mock answer_200) answer_200 eq_refl eq_refl eq_refl))).
Defined.

(** C10, the wording refuted.  [get_zip("a/b", "/tmp/out")] writes
    [/tmp/outa/b.zip]: the file does not lie beside [/tmp/out] (its directory
    is [/tmp/outa/], not [/tmp/]) and its name is [b.zip], not the name of the
    directory fused with [a/b.zip]. *)
Lemma zip_id_with_separator_not_fused :
  fs (snd (ZipFiles.get_zip zip_session "a/b" "/tmp/out" (mock answer_200)))
  = <[ "/tmp/outa/b.zip" := content answer_200 ]> ∅
  /\ Path.ends_with_sep "/tmp/out" = false
  /\ Path.dirname "/tmp/outa/b.zip" = "/tmp/outa/"
  /\ Path.dirname "/tmp/out" = "/tmp/"
  /\ Path.basename "/tmp/outa/b.zip" = "b.zip"
  /\ Path.basename "/tmp/out" +:+ "a/b" +:+ ".zip" = "outa/b.zip"
  /\ ~ fused_beside_output_dir.
Proof.
  split.
  { rewrite (get_zip_run zip_session "a/b" "/tmp/out" (mock answer_200) answer_200
               eq_refl eq_refl eq_refl).
    reflexivity. }
  repeat split.
  intros Hall. destruct (Hall "a/b" "/tmp/out" eq_refl) as [Hdir _].
  discriminate Hdir.
Qed.

(** C10, amended.  Whatever [zip_id] and [output_dir], the file [get_zip]
    opens and fills is [output_dir] directly followed by [zip_id] and [.zip],
    with no separator put in between; it is never [output_dir/zip_id.zip].
    For a [zip_id] without a separator the file lies in the directory that
    holds [output_dir] and its name is the last component of [output_dir]
    fused with [zip_id.zip]; that component is not empty unless [output_dir]
    is empty or ends with a separator. *)
Theorem get_zip_path_is_plain_concatenation
        (self : Session) (zip_id output_dir : string) (w : World) (r : Response) :
  let q := mkRequest GET (base_url self +:+ "/zip_files/" +:+ zip_id +:+ "/download")
             (headers self) None None (proxies self) in
  let path := output_dir +:+ zip_id +:+ ".zip" in
  let run := ZipFiles.get_zip self zip_id output_dir in
  network w q = Answer r ->
  status_code r = 200 ->
  openable w path = true ->
  head (file_events run w) = Some (EvOpen path)
  /\ fs (snd (run w)) = <[path := content r]> (fs w)
  /\ path <> output_dir +:+ "/" +:+ zip_id +:+ ".zip"
  /\ (Path.contains_sep zip_id = false ->
      Path.dirname path = Path.dirname output_dir
      /\ Path.basename path = Path.basename output_dir +:+ zip_id +:+ ".zip")
  /\ (Path.ends_with_sep output_dir = false -> output_dir <> "" ->
      Path.basename output_dir <> "").
Proof.
  intros q path run Hnet Hst Hopen.
  unfold run, file_events.
  rewrite (get_zip_run self zip_id output_dir w r Hnet Hst Hopen).
  fold q. fold path. cbn [fst snd fs fs_log].
  repeat match goal with |- _ /\ _ => split end.
  - rewrite drop_app_length. reflexivity.
  - reflexivity.
  - apply not_inside_directory.
  - intros Hz.
    assert (Hname : Path.contains_sep (zip_id +:+ ".zip") = false).
    { rewrite contains_sep_append, Hz. reflexivity. }
    unfold path. split.
    + by apply dirname_append.
    + by apply basename_append.
  - apply basename_nonempty.
Qed.

Lemma get_zip_path_is_plain_concatenation_witness :
  Path.dirname ("/tmp/out" +:+ "z1" +:+ ".zip") = "/tmp/"
  /\ Path.basename ("/tmp/out" +:+ "z1" +:+ ".zip") = "outz1.zip"
  /\ fs (snd (ZipFiles.get_zip zip_session "z1" "/tmp/out" (mock answer_200)))
     = <[ "/tmp/outz1.zip" := content answer_200 ]> ∅.
Proof.
  pose proof (get_zip_path_is_plain_concatenation zip_session "z1" "/tmp/out"
                (mock answer_200) answer_200 eq_refl eq_refl eq_refl)
    as (_ & Hfs & _ & Hname & _).
  destruct (Hname eq_refl) as [Hd Hb].
  split; [exact Hd | split; [exact Hb | exact Hfs]].
Defined.

(** * Further properties of the wrappers *)

(** ** Running the continuations *)

Lemma return_pretty_run r w :
  return_pretty r w =
  match json_body r with
  | Some j => (Returned (PyString (json_dumps (Some 4%nat) true j)), w)
  | None => (Raised (ValueError "Expecting value"), w)
  end.
Proof. unfold return_pretty, response_json. destruct (json_body r); reflexivity. Qed.

Lemma discard_pretty_run r w :
  discard_pretty r w =
  match json_body r with
  | Some j => (Returned PyNone, w)
  | None => (Raised (ValueError "Expecting value"), w)
  end.
Proof. unfold discard_pretty, response_json. destruct (json_body r); reflexivity. Qed.

Lemma with_open_write_loop path chunks w :
  openable w path = true ->
  with_open_wb path (fun f => for_each chunks (ZipFiles.write_chunk f)) w =
  (Returned tt,
   mkWorld (network w) (net_log w) (openable w)
           (<[path := concat chunks]> (fs w)) (delete path (buffers w))
           (fs_log w ++ EvOpen path :: chunk_events path chunks ++ [EvClose path])
           (stdout w)).
Proof.
  intros Hopen. unfold with_open_wb, open_wb. rewrite Hopen.
  erewrite write_loop; cycle 1.
  - cbn. apply lookup_insert_eq.
  - cbn. apply lookup_insert_eq.
  - unfold file_close. cbn.
    rewrite !lookup_insert_eq, ?insert_insert_eq, ?delete_insert_eq. cbn.
    rewrite app_nil_r, <- !app_assoc. reflexivity.
Qed.

Lemma download_run path r w :
  (with_open_wb path (fun f =>
     for_each (iter_content r 1024) (ZipFiles.write_chunk f)) ;;
   mret PyNone) w =
  if openable w path
  then (Returned PyNone,
        mkWorld (network w) (net_log w) (openable w)
                (<[path := content r]> (fs w)) (delete path (buffers w))
                (fs_log w ++ EvOpen path
                   :: chunk_events path (iter_content r 1024) ++ [EvClose path])
                (stdout w))
  else (Raised (OSError ("cannot open " +:+ path)), w).
Proof.
  unfold mbind, M_bind. destruct (openable w path) eqn:Hopen.
  - rewrite with_open_write_loop by assumption.
    unfold iter_content at 1. rewrite iter_slices_concat. reflexivity.
  - unfold with_open_wb, open_wb. rewrite Hopen. reflexivity.
Qed.

Lemma try_except_download path r w :
  try_except_RequestException
    (with_open_wb path (fun f =>
       for_each (iter_content r 1024) (ZipFiles.write_chunk f)) ;;
     mret PyNone) w
  = (with_open_wb path (fun f =>
       for_each (iter_content r 1024) (ZipFiles.write_chunk f)) ;;
     mret PyNone) w.
Proof. apply (try_except_offline _ r w (offline_download path)). Qed.

Lemma net_log_try_except_os_error {A} (m : M A) w :
  net_log (snd (try_except_os_error m w)) = net_log (snd (m w)).
Proof.
  unfold try_except_os_error. destruct (m w) as [[a|[]|c] w']; reflexivity.
Qed.

(** Unfolds a [round_trip] in the goal down to the cases of the answer. *)
Ltac run_round_trip :=
  unfold try_except_os_error;
  rewrite ?round_trip_run.

(** Runs the continuation once the answer is at hand. *)
Ltac run_answer :=
  rewrite ?try_except_download;
  rewrite ?try_except_offline by solve_offline;
  rewrite ?return_pretty_run, ?discard_pretty_run, ?download_run.

(** Splits on what the network does with the request of the goal. *)
Ltac answer_cases w :=
  match goal with
  | |- context [network w ?q] =>
      let r := fresh "r" in
      let msg := fresh "msg" in
      destruct (network w q) as [r|msg];
      [ destruct (status_code r =? 200); [run_answer|] |]
  end.

(** ** How many requests *)

(** X2. A call of [search] or [file_feed] without a key raises at once and
    leaves the world as it was; every other call issues exactly one request,
    appended to the log, whatever the network answers. *)
Theorem one_request_unless_key_missing (c : Call) (w : World) :
  if stopped_by_key_check c
  then invoke c w = (Raised (Exception "You must provide a valid API key"), w)
  else exists q, requests_sent (invoke c) w = [q]
                 /\ net_log (snd (invoke c w)) = net_log w ++ [q].
Proof.
  wrapper_cases c;
    cbn [stopped_by_key_check];
    try match goal with
    | |- context [match ?k with Some _ => _ | None => _ end] => destruct k
    end;
    fold_round_trip;
    first
      [ reflexivity
      | eexists; rewrite ?net_log_try_except_os_error;
        rewrite round_trip_sent, round_trip_net_log by solve_offline;
        split; reflexivity ].
Qed.

(** Case analysis on a call that is known to have sent [q]: every case is a
    [round_trip] on [q]. *)
Ltac sent_cases c Hsent :=
  wrapper_cases c;
  try match goal with
  | k : option string |- _ =>
      destruct k; [| rewrite sent_raise in Hsent; discriminate]
  end;
  fold_round_trip;
  rewrite round_trip_sent in Hsent by solve_offline;
  injection Hsent as <-.

(** ** Failures *)

(** X1. When the request cannot be delivered (the transport raises a
    [RequestException]), every wrapper prints the error and ends the process
    with exit code 1; apart from the logged request and the printed line the
    world is as before. *)
Theorem network_failure_prints_and_exits
        (c : Call) (w : World) (q : Request) (msg : string) :
  requests_sent (invoke c) w = [q] ->
  network w q = NetworkFailure msg ->
  invoke c w = (Exited 1, record_line msg (record_request q w)).
Proof.
  intros Hsent Hnet.
  sent_cases c Hsent; run_round_trip; rewrite Hnet; reflexivity.
Qed.

Lemma network_failure_prints_and_exits_witness :
  fst (invoke (AC_info_group accounts_session "g1") unreachable) = Exited 1
  /\ stdout (snd (invoke (AC_info_group accounts_session "g1") unreachable)) = ["Connection refused"].
Proof.
  rewrite (network_failure_prints_and_exits
             (AC_info_group accounts_session "g1")
             unreachable
             (mkRequest GET "https://www.virustotal.com/api/v3/groups/g1"
                [("x-apikey", Some "k"); ("Accept", Some "application/json")]
                None None None)
             "Connection refused" eq_refl eq_refl).
  split; reflexivity.
Defined.

(** X9. On an answer with a status other than 200 the only trace a call
    leaves in the world is the logged request: nothing is printed and no file
    is opened, created or written, by [get_zip] included. *)
Theorem non_200_leaves_only_the_request
        (c : Call) (w : World) (q : Request) (r : Response) :
  requests_sent (invoke c) w = [q] ->
  network w q = Answer r ->
  status_code r <> 200 ->
  snd (invoke c w) = record_request q w.
Proof.
  intros Hsent Hnet Hst. apply Z.eqb_neq in Hst.
  sent_cases c Hsent; unfold try_except_os_error;
    rewrite round_trip_run, Hnet, Hst; reflexivity.
Qed.

Lemma non_200_leaves_only_the_request_witness :
  fs (snd (ZipFiles.get_zip zip_session "z1" "/tmp/" (mock answer_404))) = ∅
  /\ fs_log (snd (ZipFiles.get_zip zip_session "z1" "/tmp/" (mock answer_404))) = []
  /\ stdout (snd (ZipFiles.get_zip zip_session "z1" "/tmp/" (mock answer_404))) = [].
Proof.
  change (ZipFiles.get_zip zip_session "z1" "/tmp/")
    with (invoke (ZF_get_zip zip_session "z1" "/tmp/")).
  rewrite (non_200_leaves_only_the_request
             (ZF_get_zip zip_session "z1" "/tmp/") (mock answer_404)
             (mkRequest GET
                "https://www.virustotal.com/api/v3/intelligence/zip_files/z1/download"
                [("x-apikey", Some "k"); ("Accept", Some "application/json")]
                None None None)
             answer_404 eq_refl eq_refl ltac:(simpl; lia)).
  repeat split.
Defined.

(** X7. No wrapper lets a [RequestException] reach its caller; [get_zip],
    the one wrapper with a handler for [os.error], lets no [OSError] reach
    its caller either; and whenever a wrapper ends the process the exit code
    is 1. *)
Theorem transport_and_file_errors_never_escape (c : Call) (w : World) :
  (forall msg, fst (invoke c w) <> Raised (RequestException msg))
  /\ (is_get_zip c = true ->
      forall msg, fst (invoke c w) <> Raised (OSError msg))
  /\ match fst (invoke c w) with
     | Exited code => code = 1
     | _ => True
     end.
Proof.
  wrapper_cases c; cbn [is_get_zip];
    try match goal with
    | |- context [match ?k with Some _ => _ | None => _ end] => destruct k
    end;
    fold_round_trip; run_round_trip;
    try answer_cases w;
    repeat match goal with
    | |- context [json_body ?r] => destruct (json_body r)
    | |- context [openable ?w' ?p] => destruct (openable w' p)
    end;
    unfold mbind, M_bind, print, py_exit; cbn;
    repeat split; intros; congruence.
Qed.

Lemma transport_and_file_errors_never_escape_witness :
  fst (invoke (ZF_get_zip zip_session "z1" "/nowhere/") (read_only answer_200))
  <> Raised (OSError ("cannot open " +:+ "/nowhere/z1.zip"))
  /\ fst (invoke (AC_info_group accounts_session "g1") unreachable)
     <> Raised (RequestException "Connection refused").
Proof.
  split.
  - apply (proj1 (proj2 (transport_and_file_errors_never_escape
                           (ZF_get_zip zip_session "z1" "/nowhere/")
                           (read_only answer_200))) eq_refl).
  - apply (proj1 (transport_and_file_errors_never_escape
                    (AC_info_group accounts_session "g1") unreachable)).
Defined.

(** ** What the wrappers leave alone *)

(** X8. No wrapper other than [get_zip] opens, creates or writes a file,
    whatever the network answers. *)
Theorem only_get_zip_touches_files (c : Call) (w : World) :
  is_get_zip c = false ->
  fs (snd (invoke c w)) = fs w
  /\ buffers (snd (invoke c w)) = buffers w
  /\ fs_log (snd (invoke c w)) = fs_log w.
Proof.
  intros Hzip.
  wrapper_cases c; try discriminate Hzip;
    try match goal with
    | |- context [match ?k with Some _ => _ | None => _ end] => destruct k
    end;
    fold_round_trip; run_round_trip;
    try answer_cases w;
    repeat match goal with
    | |- context [json_body ?r] => destruct (json_body r)
    end;
    cbn; repeat split.
Qed.

Lemma only_get_zip_touches_files_witness :
  fs (snd (invoke (LH_create_rulset livehunt_session sample_payload)
             (mock answer_200))) = ∅.
Proof.
  apply (only_get_zip_touches_files
           (LH_create_rulset livehunt_session sample_payload) (mock answer_200)
           eq_refl).
Defined.

(** ** Status 200 *)

(** X5. Every method that ends in [return json.dumps(response.json(), indent=4,
    sort_keys=True)] returns, on status 200 and a JSON body [P], the text
    [json.dumps(P, indent=4, sort_keys=True)], and changes nothing in the world
    but the request log. *)
Theorem payload_methods_return_pretty_json
        (c : Call) (w : World) (q : Request) (r : Response) (P : json) :
  returns_payload c = true ->
  requests_sent (invoke c) w = [q] ->
  network w q = Answer r ->
  status_code r = 200 ->
  json_body r = Some P ->
  invoke c w
  = (Returned (PyString (json_dumps (Some 4%nat) true P)), record_request q w).
Proof.
  intros Hret Hsent Hnet Hst Hj.
  sent_cases c Hsent; try discriminate Hret;
    run_round_trip; rewrite Hnet, Hst; cbn [Z.eqb Pos.eqb];
    run_answer; rewrite Hj; reflexivity.
Qed.

Lemma payload_methods_return_pretty_json_witness :
  fst (invoke (ZF_info_zip zip_session "z1") (mock answer_200))
  = Returned (PyString (json_dumps (Some 4%nat) true sample_payload)).
Proof.
  rewrite (payload_methods_return_pretty_json
             (ZF_info_zip zip_session "z1") (mock answer_200)
             (mkRequest GET
                "https://www.virustotal.com/api/v3/intelligence/zip_files/z1"
                [("x-apikey", Some "k"); ("Accept", Some "application/json")]
                None None None)
             answer_200 sample_payload eq_refl eq_refl eq_refl eq_refl eq_refl).
  reflexivity.
Defined.

(** X6. The deleting wrappers and [abort_job] never look at the body: on
    status 200 they return [None] whatever the answer holds, JSON or not. *)
Theorem delete_and_abort_return_None
        (c : Call) (w : World) (q : Request) (r : Response) :
  returns_nothing c = true ->
  requests_sent (invoke c) w = [q] ->
  network w q = Answer r ->
  status_code r = 200 ->
  invoke c w = (Returned PyNone, record_request q w).
Proof.
  intros Hret Hsent Hnet Hst.
  sent_cases c Hsent; try discriminate Hret;
    run_round_trip; rewrite Hnet, Hst; cbn [Z.eqb Pos.eqb];
    run_answer; reflexivity.
Qed.

Lemma delete_and_abort_return_None_witness :
  fst (invoke (RH_abort_job retrohunt_session "j1")
         (mock (mkResponse 200 "not json" None []))) = Returned PyNone.
Proof.
  rewrite (delete_and_abort_return_None
             (RH_abort_job retrohunt_session "j1")
             (mock (mkResponse 200 "not json" None []))
             (mkRequest POST
                "https://www.virustotal.com/api/v3/intelligence/Retrohunt_jobs/j1/abort"
                [("x-apikey", Some "k"); ("Accept", Some "application/json")]
                None None None)
             (mkResponse 200 "not json" None []) eq_refl eq_refl eq_refl eq_refl).
  reflexivity.
Defined.

(** ** [get_zip] at its edges *)

(** X10. When the answer is 200 but the output file cannot be opened,
    [get_zip] prints one line and ends the process with exit code 1; the
    request has been sent, and no file is created or changed. *)
Theorem get_zip_unwritable_path_exits
        (self : Session) (zip_id output_dir : string) (w : World) (r : Response) :
  let q := mkRequest GET (base_url self +:+ "/zip_files/" +:+ zip_id +:+ "/download")
             (headers self) None None (proxies self) in
  let path := output_dir +:+ zip_id +:+ ".zip" in
  let run := ZipFiles.get_zip self zip_id output_dir in
  network w q = Answer r ->
  status_code r = 200 ->
  openable w path = false ->
  fst (run w) = Exited 1
  /\ (exists line, stdout (snd (run w)) = stdout w ++ [line])
  /\ fs (snd (run w)) = fs w
  /\ fs_log (snd (run w)) = fs_log w
  /\ net_log (snd (run w)) = net_log w ++ [q].
Proof.
  intros q path run Hnet Hst Hopen. unfold run.
  unfold_wrappers. fold_round_trip. run_round_trip.
  fold q. rewrite Hnet, Hst. cbn [Z.eqb Pos.eqb]. run_answer.
  cbn [openable record_request]. fold path. rewrite Hopen.
  unfold mbind, M_bind, print, py_exit. cbn.
  repeat match goal with |- _ /\ _ => split end; try reflexivity.
  eexists. reflexivity.
Qed.

Lemma get_zip_unwritable_path_exits_witness :
  fst (ZipFiles.get_zip zip_session "z1" "/nowhere/" (read_only answer_200))
  = Exited 1
  /\ fs (snd (ZipFiles.get_zip zip_session "z1" "/nowhere/" (read_only answer_200)))
     = ∅.
Proof.
  pose proof (get_zip_unwritable_path_exits zip_session "z1" "/nowhere/"
                (read_only answer_200) answer_200 eq_refl eq_refl eq_refl)
    as (Hexit & _ & Hfs & _).
  split; [exact Hexit | exact Hfs].
Defined.

(** X16. On a status-200 answer with an empty body [get_zip] still creates
    the file (or truncates the one that was there): it is opened and closed
    with no write in between, and ends up empty. *)
Theorem get_zip_empty_body_leaves_empty_file
        (self : Session) (zip_id output_dir : string) (w : World) (r : Response) :
  let q := mkRequest GET (base_url self +:+ "/zip_files/" +:+ zip_id +:+ "/download")
             (headers self) None None (proxies self) in
  let path := output_dir +:+ zip_id +:+ ".zip" in
  let run := ZipFiles.get_zip self zip_id output_dir in
  network w q = Answer r ->
  status_code r = 200 ->
  openable w path = true ->
  content r = [] ->
  fst (run w) = Returned PyNone
  /\ file_events run w = [EvOpen path; EvClose path]
  /\ fs (snd (run w)) !! path = Some [].
Proof.
  intros q path run Hnet Hst Hopen Hempty.
  unfold run, file_events.
  rewrite (get_zip_run self zip_id output_dir w r Hnet Hst Hopen).
  fold q. fold path. cbn [fst snd fs fs_log].
  unfold iter_content. rewrite Hempty. simp iter_slices. cbn [chunk_events flat_map app].
  repeat match goal with |- _ /\ _ => split end.
  - reflexivity.
  - apply drop_app_length.
  - apply lookup_insert_eq.
Qed.

Lemma get_zip_empty_body_leaves_empty_file_witness :
  fs (snd (ZipFiles.get_zip zip_session "z1" "/tmp/"
             (mock (mkResponse 200 "" None [[]; []]))))
    !! "/tmp/z1.zip" = Some [].
Proof.
  apply (proj2 (proj2 (get_zip_empty_body_leaves_empty_file zip_session "z1" "/tmp/"
                         (mock (mkResponse 200 "" None [[]; []]))
                         (mkResponse 200 "" None [[]; []])
                         eq_refl eq_refl eq_refl eq_refl))).
Defined.

Lemma chunk_events_filter f chunks :
  chunk_events f chunks
  = flat_map (fun c => [EvWrite f c; EvFlush f]) (List.filter nonempty chunks).
Proof.
  unfold chunk_events. induction chunks as [|c rest IH]; [reflexivity|].
  cbn [flat_map List.filter]. rewrite IH.
  destruct (nonempty c); reflexivity.
Qed.

Lemma flushes_of_writes f (chunks : list (list byte)) :
  length (List.filter is_flush
            (flat_map (fun c => [EvWrite f c; EvFlush f]) chunks))
  = length chunks.
Proof.
  induction chunks as [|c rest IH]; [reflexivity|].
  cbn. by rewrite IH.
Qed.

(** X11. The write loop of [get_zip], run over any sequence of chunks on a
    path that can be opened: the file ends up holding the chunks
    concatenated in order, every non-empty chunk is written and then
    flushed, and an empty chunk causes neither a write nor a flush, so there
    are as many flushes as non-empty chunks. *)
Theorem write_loop_skips_empty_chunks
        (path : string) (chunks : list (list byte)) (w : World) :
  let run := with_open_wb path (fun f =>
               for_each chunks (ZipFiles.write_chunk f)) in
  openable w path = true ->
  fst (run w) = Returned tt
  /\ fs (snd (run w)) = <[path := concat chunks]> (fs w)
  /\ file_events run w
     = EvOpen path
       :: flat_map (fun c => [EvWrite path c; EvFlush path])
            (List.filter nonempty chunks)
       ++ [EvClose path]
  /\ length (List.filter is_flush (file_events run w))
     = length (List.filter nonempty chunks).
Proof.
  intros run Hopen. unfold run, file_events.
  rewrite with_open_write_loop by assumption.
  cbn [fst snd fs fs_log]. rewrite drop_app_length, chunk_events_filter.
  repeat match goal with |- _ /\ _ => split end; try reflexivity.
  cbn [List.filter is_flush]. rewrite List.filter_app. cbn [List.filter is_flush].
  rewrite length_app, flushes_of_writes. cbn. lia.
Qed.

Lemma write_loop_skips_empty_chunks_witness :
  file_events
    (with_open_wb "/tmp/a.zip" (fun f =>
       for_each [[x50; x4b]; []; [x03]] (ZipFiles.write_chunk f)))
    (mock answer_200)
  = [EvOpen "/tmp/a.zip";
     EvWrite "/tmp/a.zip" [x50; x4b]; EvFlush "/tmp/a.zip";
     EvWrite "/tmp/a.zip" [x03]; EvFlush "/tmp/a.zip";
     EvClose "/tmp/a.zip"].
Proof.
  apply (proj1 (proj2 (proj2 (write_loop_skips_empty_chunks "/tmp/a.zip"
                                [[x50; x4b]; []; [x03]] (mock answer_200)
                                eq_refl)))).
Defined.

(** ** What every request carries *)

(** Destructs the hypothesis that the receiver of the call came out of its
    constructor, leaving the session as the literal the constructor built. *)
Ltac constructed H :=
  unfold on_constructed_session in H; cbn [receiver] in H;
  try (destruct H as (?key & ?px & ?w0 & H);
       cbn [construct] in H;
       unfold Livehunt.__init__, Retrohunt.__init__, Accounts.__init__,
         ZipFiles.__init__ in H;
       try match type of H with
           | context [match ?k with Some _ => _ | None => _ end] =>
               destruct k; [|discriminate H]
           end;
       cbn in H; injection H as <-).

(** X3. Every request of [search], [file_feed] and of any method called on a
    session that its constructor returned carries exactly two headers:
    [x-apikey] with the key of the call and [Accept: application/json]. *)
Theorem requests_carry_key_and_accept (c : Call) (w : World) (q : Request) :
  on_constructed_session c ->
  requests_sent (invoke c) w = [q] ->
  req_headers q = [("x-apikey", call_key c); ("Accept", Some "application/json")].
Proof.
  intros Hcons Hsent.
  sent_cases c Hsent; constructed Hcons; reflexivity.
Qed.

Lemma requests_carry_key_and_accept_witness :
  req_headers
    (mkRequest GET "https://www.virustotal.com/api/v3/users/u1"
       [("x-apikey", Some "k"); ("Accept", Some "application/json")]
       (Some [("id", Some (PyStr "u1"))]) None None)
  = [("x-apikey", Some "k"); ("Accept", Some "application/json")].
Proof.
  apply (requests_carry_key_and_accept (AC_info_user accounts_session "u1")
           (mock answer_200)).
  - exists (Some "k"), None, (mock answer_200). reflexivity.
  - reflexivity.
Defined.

(** X4. Every request of [search], [file_feed] and of any method called on a
    session that its constructor returned goes to a URL that starts with
    [https://www.virustotal.com/api/v3/], whatever the arguments. *)
Theorem requests_go_to_the_api (c : Call) (w : World) (q : Request) :
  on_constructed_session c ->
  requests_sent (invoke c) w = [q] ->
  String.prefix "https://www.virustotal.com/api/v3/" (url q) = true.
Proof.
  intros Hcons Hsent.
  sent_cases c Hsent; constructed Hcons; reflexivity.
Qed.

Lemma requests_go_to_the_api_witness :
  String.prefix "https://www.virustotal.com/api/v3/"
    (url (mkRequest GET
            "https://www.virustotal.com/api/v3/groups/g1/relationships/graphs"
            [("x-apikey", Some "k"); ("Accept", Some "application/json")]
            (Some [("limit", None); ("cursor", None)]) None None)) = true.
Proof.
  apply (requests_go_to_the_api
           (AC_get_relationship accounts_session "g1" "graphs" None None)
           (mock answer_200)).
  - exists (Some "k"), None, (mock answer_200). reflexivity.
  - reflexivity.
Defined.

(** X13. Every wrapper hands the proxies it was given (its argument for
    [search], the session's otherwise) to [requests], with two exceptions
    that always go out without proxies: [file_feed], and [get_notifications]
    when it looks up a single notification. *)
Theorem proxies_forwarded_with_two_exceptions (c : Call) (w : World) (q : Request) :
  requests_sent (invoke c) w = [q] ->
  req_proxies q = if omits_proxies c then None else call_proxies c.
Proof.
  intros Hsent.
  sent_cases c Hsent; cbn [omits_proxies];
    repeat match goal with H : truthy _ = _ |- _ => rewrite H end;
    reflexivity.
Qed.

Lemma proxies_forwarded_with_two_exceptions_witness :
  req_proxies
    (mkRequest GET
       "https://www.virustotal.com/api/v3/intelligence/hunting_notifications/n1"
       [("x-apikey", Some "k"); ("Accept", Some "application/json")]
       (Some [("id", Some (PyStr "n1"))]) None None)
  = None.
Proof.
  apply (proxies_forwarded_with_two_exceptions
           (LH_get_notifications
              (mkSession (Some "k") "https://www.virustotal.com/api/v3/intelligence"
                 [("x-apikey", Some "k"); ("Accept", Some "application/json")]
                 (Some [("https", "http://10.0.0.1:3128")]))
              (Some "n1") None None None)
           (mock answer_200)).
  reflexivity.
Defined.

(** X14. Apart from the look-ups by ID and the listing of notifications,
    every wrapper sends each optional argument that was supplied, as
    [key=str(value)] under the key the wrapper gives it. *)
Theorem supplied_arguments_are_sent
        (c : Call) (w : World) (q : Request) (k : string) (v : pyval) :
  forwards_optional_args c = true ->
  requests_sent (invoke c) w = [q] ->
  In (k, Some v) (optional_query_args c) ->
  In (k, py_str v) (outgoing_query q).
Proof.
  intros Hfw Hsent Hin.
  sent_cases c Hsent;
    cbn [forwards_optional_args] in Hfw;
    repeat match goal with
    | H : truthy ?x = _, H' : context [truthy ?x] |- _ => rewrite H in H'
    end;
    try discriminate Hfw;
    cbn [optional_query_args In] in Hin; try contradiction;
    unfold outgoing_query; cbn [req_params];
    repeat match goal with o : option pyval |- _ => destruct o end;
    cbn [encode_params In] in *;
    intuition (try congruence);
    repeat match goal with
    | H : (_, _) = (_, _) |- _ => injection H as <- <-
    end; auto 10.
Qed.

Lemma supplied_arguments_are_sent_witness :
  In ("descriptors_only", "True")
     (outgoing_query
        (mkRequest GET "https://www.virustotal.com/api/v3/intelligence/search"
           [("x-apikey", Some "k"); ("Accept", Some "application/json")]
           (Some [("query", Some (PyStr "type:peexe")); ("order", None);
                  ("limit", Some (PyInt 10)); ("cursor", None);
                  ("descriptors_only", Some (PyBool true))])
           None None)).
Proof.
  apply (supplied_arguments_are_sent
           (Search (Some "k") "type:peexe" None (Some (PyInt 10)) None
                   (Some (PyBool true)) None)
           (mock answer_200) _ "descriptors_only" (PyBool true)).
  - reflexivity.
  - reflexivity.
  - simpl. auto 10.
Defined.

(** X15. The body of a request is [json.dumps(data)] for the four wrappers
    that take [data] and absent for all others ([abort_job] posts without a
    body); a request never has both a query dictionary and a body, a query
    dictionary goes only with GET and DELETE, a body only with POST and
    PATCH. *)
Theorem body_is_the_data_argument (c : Call) (w : World) (q : Request) :
  requests_sent (invoke c) w = [q] ->
  req_data q = json_dumps_default <$> call_body c
  /\ (req_params q <> None ->
      req_data q = None /\ (method q = GET \/ method q = DELETE))
  /\ (req_data q <> None -> method q = POST \/ method q = PATCH).
Proof.
  intros Hsent.
  sent_cases c Hsent; cbn; intuition congruence.
Qed.

Lemma body_is_the_data_argument_witness :
  req_data
    (mkRequest PATCH
       "https://www.virustotal.com/api/v3/intelligence/hunting_rulesets/r1"
       [("x-apikey", Some "k"); ("Accept", Some "application/json")]
       None (Some (json_dumps_default sample_payload)) None)
  = Some (json_dumps_default sample_payload).
Proof.
  apply (proj1 (body_is_the_data_argument
                  (LH_update_ruleset livehunt_session "r1" sample_payload)
                  (mock answer_200) _ eq_refl)).
Defined.

(** ** The optional resource ID *)

(** X12. [get_rulesets], [get_notifications] and [get_jobs] called with a
    non-empty ID request the collection path followed by [/] and the ID, send
    the ID once more as the only query parameter, [id], and ignore [limit],
    [fltr], [order] and [cursor] altogether. *)
Theorem lookup_by_id_ignores_pagination
        (l : Lookup) (self : Session) (id : string)
        (limit fltr order cursor : option pyval) (w : World) (q : Request) :
  id <> "" ->
  requests_sent (invoke (lookup_call l self (Some id) limit fltr order cursor)) w
  = [q] ->
  url q = base_url self +:+ lookup_collection l +:+ "/" +:+ id
  /\ outgoing_query q = [("id", id)]
  /\ invoke (lookup_call l self (Some id) limit fltr order cursor) w
     = invoke (lookup_call l self (Some id) None None None None) w.
Proof.
  intros Hne Hsent.
  destruct l; cbn [lookup_call] in *; unfold_wrappers;
    rewrite (truthy_Some id Hne) in *; fold_round_trip;
    rewrite round_trip_sent in Hsent by solve_offline;
    injection Hsent as <-; repeat split.
Qed.

Lemma lookup_by_id_ignores_pagination_witness :
  outgoing_query
    (mkRequest GET
       "https://www.virustotal.com/api/v3/intelligence/hunting_rulesets/r1"
       [("x-apikey", Some "k"); ("Accept", Some "application/json")]
       (Some [("id", Some (PyStr "r1"))]) None None)
  = [("id", "r1")].
Proof.
  apply (proj1 (proj2 (lookup_by_id_ignores_pagination Lookup_ruleset
                         livehunt_session "r1" (Some (PyInt 5)) None None None
                         (mock answer_200) _ ltac:(discriminate) eq_refl))).
Defined.

(** X17. The same three wrappers treat an empty-string ID like no ID at
    all: the collection itself is requested, no [id] parameter is sent, and
    the call behaves exactly as with [None]. *)
Theorem lookup_with_empty_id_lists
        (l : Lookup) (self : Session) (id : option string)
        (limit fltr order cursor : option pyval) (w : World) (q : Request) :
  truthy id = false ->
  requests_sent (invoke (lookup_call l self id limit fltr order cursor)) w = [q] ->
  url q = base_url self +:+ lookup_collection l
  /\ ~ In "id" (map fst (outgoing_query q))
  /\ invoke (lookup_call l self id limit fltr order cursor) w
     = invoke (lookup_call l self None limit fltr order cursor) w.
Proof.
  intros Hid Hsent.
  destruct l; cbn [lookup_call] in *; unfold_wrappers;
    rewrite Hid in *; cbn [truthy]; fold_round_trip;
    rewrite round_trip_sent in Hsent by solve_offline;
    injection Hsent as <-;
    (split; [reflexivity | split; [| reflexivity]]);
    unfold outgoing_query; cbn [req_params];
    repeat match goal with o : option pyval |- _ => destruct o end;
    cbn; intuition discriminate.
Qed.

Lemma lookup_with_empty_id_lists_witness :
  url (mkRequest GET
         "https://www.virustotal.com/api/v3/intelligence/Retrohunt_jobs"
         [("x-apikey", Some "k"); ("Accept", Some "application/json")]
         (Some [("limit", None); ("fltr", None); ("cursor", None)]) None None)
  = "https://www.virustotal.com/api/v3/intelligence" +:+ "/Retrohunt_jobs".
Proof.
  apply (proj1 (lookup_with_empty_id_lists Lookup_job retrohunt_session (Some "")
                  None None None None (mock answer_200) _ eq_refl eq_refl)).
Defined.
